(** * XNH_2DCAD: the geometric interaction core

    A shallow embedding of [src/utils/math.ts], the type declarations of the
    repository and the event handlers of [src/App.tsx].

    Numbers.  The program computes with JavaScript numbers (IEEE doubles).
    They are idealised here as the real numbers [R]: every arithmetic
    operation is exact, and NaN and the infinities are not represented.  All
    statements below are therefore statements about the exact arithmetic of
    the program; rounding is outside the model. *)

From Stdlib Require Import Reals Lra Lia List String Ascii ZArith Bool.
From Stdlib Require Import Zfloor DecimalString.
Import ListNotations.

Local Open Scope R_scope.

(** ** Boolean comparisons on numbers *)

Definition Rltb (a b : R) : bool := if Rlt_dec a b then true else false.
Definition Rleb (a b : R) : bool := if Rle_dec a b then true else false.
Definition Reqb (a b : R) : bool := if Req_dec_T a b then true else false.

(** JavaScript's [a >= b]. *)
Definition Rgeb (a b : R) : bool := Rleb b a.

(** ** Data model ([types.ts]) *)

Inductive ToolType := SELECT | LINE | RECTANGLE | CIRCLE | ARC | TEXT | PAN.

Record Point := mkPoint { pt_x : R; pt_y : R }.

Record BaseEntity := mkBase {
  ent_id : string;
  ent_layerId : string;
  ent_color : option string;
  ent_selected : option bool
}.

(** The tagged union [Entity]; the tag is the constructor. *)
Inductive Entity :=
| LineEntity (b : BaseEntity) (start end_ : Point)
| RectEntity (b : BaseEntity) (x y width height : R)
| CircleEntity (b : BaseEntity) (cx cy r : R)
| TextEntity (b : BaseEntity) (x y : R) (text : string) (fontSize : R).

Definition base (e : Entity) : BaseEntity :=
  match e with
  | LineEntity b _ _ | RectEntity b _ _ _ _
  | CircleEntity b _ _ _ | TextEntity b _ _ _ _ => b
  end.

Definition id (e : Entity) : string := ent_id (base e).
Definition layerId (e : Entity) : string := ent_layerId (base e).

Record Layer := mkLayer {
  layer_id : string;
  layer_name : string;
  layer_color : string;
  layer_visible : bool;
  layer_locked : bool
}.

Record ViewState := mkView { view_x : R; view_y : R; view_zoom : R }.

(** ** Geometry ([utils/math.ts]) *)

(** Exact arithmetic: the rounding, overflow and underflow of doubles are
    outside the model (on doubles the source returns 0 for two distinct
    points whose squared differences underflow). *)
Definition distance (p1 p2 : Point) : R :=
  sqrt ((pt_x p2 - pt_x p1) ^ 2 + (pt_y p2 - pt_y p1) ^ 2).

Definition screenToWorld (screenX screenY viewX viewY zoom : R) : Point :=
  {| pt_x := (screenX - viewX) / zoom;
     pt_y := (screenY - viewY) / zoom |}.

Definition worldToScreen (worldX worldY viewX viewY zoom : R) : Point :=
  {| pt_x := worldX * zoom + viewX;
     pt_y := worldY * zoom + viewY |}.

(** Exported by [utils/math.ts]; the select handler inlines the same test. *)
Definition isPointInRect (p : Point) (rx ry rw rh : R) : bool :=
  Rgeb (pt_x p) rx && Rleb (pt_x p) (rx + rw) &&
  Rgeb (pt_y p) ry && Rleb (pt_y p) (ry + rh).

(** ** Hit test (the [SELECT] branch of [handleMouseDown]) *)

(** [layers.find(l => l.id === ent.layerId)?.visible]: the first layer with
    that identifier decides; a missing layer gives [undefined], which is
    falsy. *)
Definition findLayer (layers : list Layer) (lid : string) : option Layer :=
  find (fun l => String.eqb (layer_id l) lid) layers.

Definition layerVisible (layers : list Layer) (lid : string) : bool :=
  match findLayer layers lid with
  | Some l => layer_visible l
  | None => false
  end.

(** A quotient that records whether its divisor was zero: [None] stands for
    the NaN or infinity that JavaScript would produce there. *)
Definition quotient (a b : R) : option R :=
  if Reqb b 0 then None else Some (a / b).

(** The [line] case.  [None] means that the projection parameter [t] was
    computed with a zero divisor. *)
Definition lineHit (worldPos start end_ : Point) (tolerance : R) : option bool :=
  let l2 := distance start end_ ^ 2 in
  if Reqb l2 0 then Some (Rltb (distance worldPos start) tolerance)
  else
    match quotient
            ((pt_x worldPos - pt_x start) * (pt_x end_ - pt_x start) +
             (pt_y worldPos - pt_y start) * (pt_y end_ - pt_y start)) l2 with
    | None => None
    | Some t =>
        let tClamped := Rmax 0 (Rmin 1 t) in
        let proj :=
          {| pt_x := pt_x start + tClamped * (pt_x end_ - pt_x start);
             pt_y := pt_y start + tClamped * (pt_y end_ - pt_y start) |} in
        Some (Rltb (distance worldPos proj) tolerance)
    end.

(** The per-variant part of the callback given to [find]: everything after
    its first line. *)
Definition variantTest (zoom : R) (worldPos : Point) (ent : Entity) : bool :=
  let tolerance := 5 / zoom in
  match ent with
  | CircleEntity _ cx cy r =>
      let d := distance worldPos {| pt_x := cx; pt_y := cy |} in
      Rltb (Rabs (d - r)) tolerance
  | LineEntity _ start end_ =>
      match lineHit worldPos start end_ tolerance with
      | Some b => b
      | None => false (* a NaN distance compares false *)
      end
  | RectEntity _ x y width height =>
      Rgeb (pt_x worldPos) x && Rleb (pt_x worldPos) (x + width) &&
      Rgeb (pt_y worldPos) y && Rleb (pt_y worldPos) (y + height)
  | TextEntity _ _ _ _ _ => false
  end.

(** The callback given to [find]. *)
Definition hitPredicate (layers : list Layer) (zoom : R) (worldPos : Point)
    (ent : Entity) : bool :=
  if negb (layerVisible layers (layerId ent)) then false
  else variantTest zoom worldPos ent.

(** [entities.slice().reverse().find(...)]. *)
Definition hitTest (entities : list Entity) (layers : list Layer)
    (worldPos : Point) (zoom : R) : option Entity :=
  find (hitPredicate layers zoom worldPos) (rev entities).

(** ** Application state ([App.tsx]) *)

Local Open Scope string_scope.

Record State := mkState {
  entities : list Entity;
  layers : list Layer;
  activeLayerId : string;
  view : ViewState;
  tool : ToolType;
  selectedIds : list string;
  previewEntity : option Entity;
  isDrawing : bool;
  startPoint : option Point;
  dragStart : option Point;
  commandHistory : list string;
  mousePos : Point
}.

Definition INITIAL_LAYERS : list Layer :=
  [ mkLayer "0" "0 (Default)" "#ffffff" true false;
    mkLayer "1" "Construction" "#38bdf8" true false;
    mkLayer "2" "Dimensions" "#fbbf24" true false ].

Definition INITIAL_VIEW : ViewState := mkView 0 0 1.

Definition initialState : State :=
  {| entities := [];
     layers := INITIAL_LAYERS;
     activeLayerId := "0";
     view := INITIAL_VIEW;
     tool := SELECT;
     selectedIds := [];
     previewEntity := None;
     isDrawing := false;
     startPoint := None;
     dragStart := None;
     commandHistory := ["Welcome to Gemini CAD Studio."];
     mousePos := mkPoint 0 0 |}.

(** Field updates, one per [useState] setter. *)
Definition setEntities v (s : State) :=
  mkState v (layers s) (activeLayerId s) (view s) (tool s) (selectedIds s)
    (previewEntity s) (isDrawing s) (startPoint s) (dragStart s)
    (commandHistory s) (mousePos s).
Definition setLayers v (s : State) :=
  mkState (entities s) v (activeLayerId s) (view s) (tool s) (selectedIds s)
    (previewEntity s) (isDrawing s) (startPoint s) (dragStart s)
    (commandHistory s) (mousePos s).
Definition setActiveLayerId v (s : State) :=
  mkState (entities s) (layers s) v (view s) (tool s) (selectedIds s)
    (previewEntity s) (isDrawing s) (startPoint s) (dragStart s)
    (commandHistory s) (mousePos s).
Definition setView v (s : State) :=
  mkState (entities s) (layers s) (activeLayerId s) v (tool s) (selectedIds s)
    (previewEntity s) (isDrawing s) (startPoint s) (dragStart s)
    (commandHistory s) (mousePos s).
Definition setTool v (s : State) :=
  mkState (entities s) (layers s) (activeLayerId s) (view s) v (selectedIds s)
    (previewEntity s) (isDrawing s) (startPoint s) (dragStart s)
    (commandHistory s) (mousePos s).
Definition setSelectedIds v (s : State) :=
  mkState (entities s) (layers s) (activeLayerId s) (view s) (tool s) v
    (previewEntity s) (isDrawing s) (startPoint s) (dragStart s)
    (commandHistory s) (mousePos s).
Definition setPreviewEntity v (s : State) :=
  mkState (entities s) (layers s) (activeLayerId s) (view s) (tool s)
    (selectedIds s) v (isDrawing s) (startPoint s) (dragStart s)
    (commandHistory s) (mousePos s).
Definition setIsDrawing v (s : State) :=
  mkState (entities s) (layers s) (activeLayerId s) (view s) (tool s)
    (selectedIds s) (previewEntity s) v (startPoint s) (dragStart s)
    (commandHistory s) (mousePos s).
Definition setStartPoint v (s : State) :=
  mkState (entities s) (layers s) (activeLayerId s) (view s) (tool s)
    (selectedIds s) (previewEntity s) (isDrawing s) v (dragStart s)
    (commandHistory s) (mousePos s).
Definition setDragStart v (s : State) :=
  mkState (entities s) (layers s) (activeLayerId s) (view s) (tool s)
    (selectedIds s) (previewEntity s) (isDrawing s) (startPoint s) v
    (commandHistory s) (mousePos s).
Definition setCommandHistory v (s : State) :=
  mkState (entities s) (layers s) (activeLayerId s) (view s) (tool s)
    (selectedIds s) (previewEntity s) (isDrawing s) (startPoint s)
    (dragStart s) v (mousePos s).
Definition setMousePos v (s : State) :=
  mkState (entities s) (layers s) (activeLayerId s) (view s) (tool s)
    (selectedIds s) (previewEntity s) (isDrawing s) (startPoint s)
    (dragStart s) (commandHistory s) v.

(** [layers.find(l => l.id === activeLayerId) || layers[0]]; [None] is
    JavaScript's [undefined] (no layer at all). *)
Definition getActiveLayer (s : State) : option Layer :=
  match findLayer (layers s) (activeLayerId s) with
  | Some l => Some l
  | None => hd_error (layers s)
  end.

(** [prev => [...prev.slice(-4), msg]]. *)
Definition addToHistory (msg : string) (s : State) : State :=
  let prev := commandHistory s in
  setCommandHistory (skipn (List.length prev - 4) prev ++ [msg])%list s.

(** The [type] tag of an entity, as the string the source stores. *)
Definition entityType (e : Entity) : string :=
  match e with
  | LineEntity _ _ _ => "line"
  | RectEntity _ _ _ _ _ => "rect"
  | CircleEntity _ _ _ _ => "circle"
  | TextEntity _ _ _ _ _ => "text"
  end.

(** What a handler reads from the browser: the pointer event and the
    bounding rectangle of the canvas ([None] while [canvasRef.current] is
    null). *)
Record MouseEvent := mkMouse { clientX : R; clientY : R; button : Z }.
Record DOMRect := mkRect { rect_left : R; rect_top : R }.

Definition eventWorldPos (canvas : DOMRect) (e : MouseEvent) (s : State) : Point :=
  screenToWorld (clientX e - rect_left canvas) (clientY e - rect_top canvas)
    (view_x (view s)) (view_y (view s)) (view_zoom (view s)).

(** [handleMouseDown].  [newId] is the string [generateId()] returns on this
    call.  The result is [None] when the handler throws: reading [.color] of
    the [undefined] that [getActiveLayer] gives for an empty layer list. *)
Definition handleMouseDown (canvas : option DOMRect) (newId : string)
    (e : MouseEvent) (s : State) : option State :=
  match tool s with
  | PAN => Some (setDragStart (Some (mkPoint (clientX e) (clientY e))) s)
  | _ =>
    match canvas with
    | None => Some s
    | Some rect =>
      let worldPos := eventWorldPos rect e s in
      if (button e =? 1)%Z then
        Some (setDragStart (Some (mkPoint (clientX e) (clientY e))) s)
      else
        match tool s with
        | SELECT =>
            match hitTest (entities s) (layers s) worldPos (view_zoom (view s)) with
            | Some hit => Some (setSelectedIds [id hit] s)
            | None => Some (setSelectedIds [] s)
            end
        | _ =>
            if negb (isDrawing s) then
              match getActiveLayer s with
              | None => None
              | Some active =>
                  let common :=
                    {| ent_id := newId;
                       ent_layerId := activeLayerId s;
                       ent_color := Some (layer_color active);
                       ent_selected := Some false |} in
                  let newEnt :=
                    match tool s with
                    | LINE => Some (LineEntity common worldPos worldPos)
                    | RECTANGLE =>
                        Some (RectEntity common (pt_x worldPos) (pt_y worldPos) 0 0)
                    | CIRCLE =>
                        Some (CircleEntity common (pt_x worldPos) (pt_y worldPos) 0)
                    | _ => None
                    end in
                  Some (setPreviewEntity newEnt
                          (setStartPoint (Some worldPos) (setIsDrawing true s)))
              end
            else
              let s1 :=
                match previewEntity s with
                | Some pe =>
                    addToHistory ("Created " ++ entityType pe)
                      (setPreviewEntity None
                         (setEntities (entities s ++ [pe])%list s))
                | None => s
                end in
              Some (setStartPoint None (setIsDrawing false s1))
        end
    end
  end.

(** [handleMouseMove]. *)
Definition handleMouseMove (canvas : option DOMRect) (e : MouseEvent)
    (s : State) : State :=
  match canvas with
  | None => s
  | Some rect =>
    let worldPos := eventWorldPos rect e s in
    let s := setMousePos worldPos s in
    match dragStart s with
    | Some ds =>
        let dx := (clientX e - pt_x ds)%R in
        let dy := (clientY e - pt_y ds)%R in
        let v := view s in
        setDragStart (Some (mkPoint (clientX e) (clientY e)))
          (setView (mkView (view_x v + dx) (view_y v + dy) (view_zoom v)) s)
    | None =>
        match isDrawing s, startPoint s, previewEntity s with
        | true, Some sp, Some pe =>
            match pe with
            | LineEntity b st _ => setPreviewEntity (Some (LineEntity b st worldPos)) s
            | RectEntity b x y _ _ =>
                setPreviewEntity
                  (Some (RectEntity b x y (pt_x worldPos - pt_x sp)
                           (pt_y worldPos - pt_y sp))) s
            | CircleEntity b cx cy _ =>
                setPreviewEntity
                  (Some (CircleEntity b cx cy (distance sp worldPos))) s
            | TextEntity _ _ _ _ _ => s
            end
        | _, _, _ => s
        end
    end
  end.

(** [handleMouseUp]. *)
Definition handleMouseUp (s : State) : State :=
  match dragStart s with
  | Some _ => setDragStart None s
  | None => s
  end.

(** [handleWheel]; [deltaY] is the event's scroll amount. *)
Definition handleWheel (deltaY : R) (s : State) : State :=
  let scaleFactor := 1.1%R in
  let zoomIn := Rltb deltaY 0 in
  let newZoom :=
    if zoomIn then (view_zoom (view s) * scaleFactor)%R
    else (view_zoom (view s) / scaleFactor)%R in
  setView (mkView (view_x (view s)) (view_y (view s)) newZoom) s.

(** [selectedIds.includes(id)]. *)
Definition includes (ids : list string) (i : string) : bool :=
  existsb (String.eqb i) ids.

(** [handleDelete]. *)
Definition handleDelete (s : State) : State :=
  match selectedIds s with
  | [] => s
  | _ =>
      addToHistory "Deleted objects."
        (setSelectedIds []
           (setEntities
              (filter (fun e => negb (includes (selectedIds s) (id e)))
                 (entities s)) s))
  end.

(** [handleKey]; [key] is the event's [key] property. *)
Definition handleKey (key : string) (s : State) : State :=
  let s := if String.eqb key "Delete" then handleDelete s else s in
  if String.eqb key "Escape" then
    setTool SELECT (setSelectedIds [] (setPreviewEntity None (setIsDrawing false s)))
  else s.

(** ** The remaining handlers and the event loop *)

Definition natToString (n : nat) : string :=
  NilZero.string_of_uint (Nat.to_uint n).

(** The double-quote character, for the messages that contain one. *)
Definition dquote : string := String (ascii_of_nat 34) EmptyString.

(** Everything that can happen to the application.  Identifiers drawn by
    [generateId()] and the results of the generation service come with the
    event.  [ToolButton] ranges over all tool types although the toolbar has
    no button for [ARC] and [PAN]: the reachable states below are a superset
    of those of the program. *)
Inductive Event :=
| MouseDown (canvas : option DOMRect) (newId : string) (e : MouseEvent)
| MouseMove (canvas : option DOMRect) (e : MouseEvent)
| MouseUp
| Wheel (deltaY : R)
| KeyDown (key : string)
| ToolButton (t : ToolType)
| DeleteButton
| CommandEnter (val : string)
| NewLayer (newId : string)
| LayerSelect (n : nat)
| LayerToggleVisible (n : nat)
| LayerToggleLock (n : nat)
| ExportDXF
| GeminiSubmit (prompt : string)
| GeminiResult (result : option (list Entity)).

(** The [onKeyDown] of the command line; [val] is the upper-cased input. *)
Definition handleCommand (val : string) (s : State) : State :=
  if String.eqb val "L" then setTool LINE s
  else if String.eqb val "C" then setTool CIRCLE s
  else if String.eqb val "R" then setTool RECTANGLE s
  else addToHistory ("Unknown command: " ++ val) s.

(** The [+ New] button of the layer panel. *)
Definition handleNewLayer (newId : string) (s : State) : State :=
  let prev := layers s in
  setLayers
    (prev ++ [mkLayer newId ("Layer " ++ natToString (List.length prev))
                "#ffffff" true false])%list s.

(** The callbacks of the [n]-th layer row. *)
Definition handleLayerSelect (n : nat) (s : State) : State :=
  match nth_error (layers s) n with
  | Some l => setActiveLayerId (layer_id l) s
  | None => s
  end.

Definition handleToggleVisible (n : nat) (s : State) : State :=
  match nth_error (layers s) n with
  | Some l =>
      setLayers
        (map (fun pl =>
                if String.eqb (layer_id pl) (layer_id l)
                then mkLayer (layer_id pl) (layer_name pl) (layer_color pl)
                       (negb (layer_visible pl)) (layer_locked pl)
                else pl) (layers s)) s
  | None => s
  end.

Definition handleToggleLock (n : nat) (s : State) : State :=
  match nth_error (layers s) n with
  | Some l =>
      setLayers
        (map (fun pl =>
                if String.eqb (layer_id pl) (layer_id l)
                then mkLayer (layer_id pl) (layer_name pl) (layer_color pl)
                       (layer_visible pl) (negb (layer_locked pl))
                else pl) (layers s)) s
  | None => s
  end.

(** The white space that [trim] removes, among the ASCII characters (the
    prompt is modelled as ASCII text). *)
Definition isWhiteSpace (c : ascii) : bool :=
  let n := nat_of_ascii c in
  ((9 <=? n) && (n <=? 13) || (n =? 32))%nat.

(** [!prompt.trim()]: nothing is left after trimming. *)
Fixpoint isBlank (prompt : string) : bool :=
  match prompt with
  | EmptyString => true
  | String c rest => isWhiteSpace c && isBlank rest
  end.

(** [handleGeminiSubmit], split at its [await]: the part before the call
    (which returns at once on a blank prompt) and the part run with the
    outcome ([None]: the service failed). *)
Definition handleGeminiSubmit (prompt : string) (s : State) : State :=
  if isBlank prompt then s
  else addToHistory ("AI: " ++ dquote ++ prompt ++ dquote ++ "...") s.

Definition handleGeminiResult (result : option (list Entity)) (s : State) : State :=
  match result with
  | Some newEntities =>
      addToHistory
        ("AI: Generated " ++ natToString (List.length newEntities) ++ " entities.")
        (setEntities (entities s ++ newEntities)%list s)
  | None => addToHistory "AI: Error generating content." s
  end.

(** One event; [None] when the handler throws. *)
Definition step (ev : Event) (s : State) : option State :=
  match ev with
  | MouseDown canvas newId e => handleMouseDown canvas newId e s
  | MouseMove canvas e => Some (handleMouseMove canvas e s)
  | MouseUp => Some (handleMouseUp s)
  | Wheel deltaY => Some (handleWheel deltaY s)
  | KeyDown key => Some (handleKey key s)
  | ToolButton t => Some (setTool t s)
  | DeleteButton => Some (handleDelete s)
  | CommandEnter val => Some (handleCommand val s)
  | NewLayer newId => Some (handleNewLayer newId s)
  | LayerSelect n => Some (handleLayerSelect n s)
  | LayerToggleVisible n => Some (handleToggleVisible n s)
  | LayerToggleLock n => Some (handleToggleLock n s)
  | ExportDXF => Some (addToHistory "System: DXF Exported." s)
  | GeminiSubmit prompt => Some (handleGeminiSubmit prompt s)
  | GeminiResult result => Some (handleGeminiResult result s)
  end.

(** A run of events from a state; [None] as soon as one handler throws. *)
Fixpoint run (evs : list Event) (s : State) : option State :=
  match evs with
  | [] => Some s
  | ev :: rest =>
      match step ev s with
      | Some s' => run rest s'
      | None => None
      end
  end.

Inductive reachable : State -> Prop :=
| reachable_init : reachable initialState
| reachable_step s ev s' :
    reachable s -> step ev s = Some s' -> reachable s'.

(** [n] wheel events in the same direction. *)
Fixpoint wheelTimes (n : nat) (deltaY : R) (s : State) : State :=
  match n with
  | O => s
  | S k => handleWheel deltaY (wheelTimes k deltaY s)
  end.

(** ** Interchange serializer ([createDXFContent]) *)

Definition nl : string := String (ascii_of_nat 10) EmptyString.

(** Each item followed by a line feed. *)
Fixpoint unlines (items : list string) : string :=
  match items with
  | [] => EmptyString
  | item :: rest => item ++ nl ++ unlines rest
  end.

Section Serializer.

(** How a template literal prints a number that is not an integer of
    magnitude below 2^53 (shortest round-trip decimal, or exponent
    notation): a property of doubles, left open. *)
Variable fmtOther : R -> string.

(** Number-to-string of a template literal: the integers that doubles
    hold exactly print in decimal, with a minus sign when negative; zero
    prints as [0]. *)
Definition numToString (r : R) : string :=
  let z := Zfloor r in
  if Reqb (IZR z) r && (Z.abs z <? 2 ^ 53)%Z
  then NilZero.string_of_int (Z.to_int z)
  else fmtOther r.

Definition prologue : string :=
  unlines ["0"; "SECTION"; "2"; "HEADER"; "0"; "ENDSEC";
           "0"; "SECTION"; "2"; "ENTITIES"].

Definition trailer : string := unlines ["0"; "ENDSEC"; "0"; "EOF"].

(** What one iteration of the [forEach] appends to [s]. *)
Definition entityRecord (ent : Entity) : string :=
  match ent with
  | LineEntity _ start end_ =>
      unlines ["0"; "LINE"; "8"; layerId ent;
               "10"; numToString (pt_x start);
               "20"; numToString (- pt_y start);
               "11"; numToString (pt_x end_);
               "21"; numToString (- pt_y end_)]
  | CircleEntity _ cx cy r =>
      unlines ["0"; "CIRCLE"; "8"; layerId ent;
               "10"; numToString cx;
               "20"; numToString (- cy);
               "40"; numToString r]
  | RectEntity _ ex ey width height =>
      let x := ex in
      let y := (- ey)%R in
      let w := width in
      let h := (- height)%R in
      unlines ["0"; "LWPOLYLINE"; "8"; layerId ent; "90"; "4"; "70"; "1"]
      ++ unlines ["10"; numToString x; "20"; numToString y]
      ++ unlines ["10"; numToString (x + w); "20"; numToString y]
      ++ unlines ["10"; numToString (x + w); "20"; numToString (y + h)]
      ++ unlines ["10"; numToString x; "20"; numToString (y + h)]
  | TextEntity _ _ _ _ _ => EmptyString
  end.

Definition createDXFContent (ents : list Entity) : string :=
  fold_left (fun s ent => s ++ entityRecord ent) ents prologue ++ trailer.

End Serializer.


(** ** The entity-generation service ([generateCadEntities]) *)

(** One element of the parsed response.  The schema makes every numeric
    field a number; a field that the response leaves out ([undefined] in the
    source) is outside this model, except [fontSize], whose absence the code
    handles. *)
Record GeminiItem := mkItem {
  item_type : string;
  item_startX : R; item_startY : R; item_endX : R; item_endY : R;
  item_cx : R; item_cy : R; item_r : R;
  item_x : R; item_y : R; item_width : R; item_height : R;
  item_text : string;
  item_fontSize : option R
}.

(** [item.fontSize || 12]: a missing or zero size is falsy. *)
Definition fontSizeOrDefault (fs : option R) : R :=
  match fs with
  | Some f => if Reqb f 0 then 12 else f
  | None => 12
  end.

(** The callback given to [parsedData.map]; [newId] is what [generateId()]
    returns for this item, [None] is the [null] of the [default] case. *)
Definition transformItem (activeLayerId newId : string) (item : GeminiItem)
    : option Entity :=
  let base :=
    {| ent_id := newId; ent_layerId := activeLayerId;
       ent_color := None; ent_selected := Some false |} in
  if String.eqb (item_type item) "line" then
    Some (LineEntity base (mkPoint (item_startX item) (item_startY item))
            (mkPoint (item_endX item) (item_endY item)))
  else if String.eqb (item_type item) "circle" then
    Some (CircleEntity base (item_cx item) (item_cy item) (item_r item))
  else if String.eqb (item_type item) "rect" then
    Some (RectEntity base (item_x item) (item_y item) (item_width item)
            (item_height item))
  else if String.eqb (item_type item) "text" then
    Some (TextEntity base (item_x item) (item_y item) (item_text item)
            (fontSizeOrDefault (item_fontSize item)))
  else None.

(** [parsedData.map(...).filter(Boolean)]; [ids n] is the identifier drawn
    for the item at index [n], and [i] the index of the first item. *)
Fixpoint transformItems (activeLayerId : string) (ids : nat -> string)
    (i : nat) (items : list GeminiItem) : list Entity :=
  match items with
  | [] => []
  | item :: rest =>
      match transformItem activeLayerId (ids i) item with
      | Some ent => ent :: transformItems activeLayerId ids (S i) rest
      | None => transformItems activeLayerId ids (S i) rest
      end
  end.

(** ** Specification-side notions *)

(** The bounds of a rectangle after normalising a negative width or height,
    as the specification words them. *)
Definition inNormalizedBounds (p : Point) (x y width height : R) : Prop :=
  Rmin x (x + width) <= pt_x p <= Rmax x (x + width) /\
  Rmin y (y + height) <= pt_y p <= Rmax y (y + height).

(** The owning layer of an entity exists and is visible, said without the
    program's lookup: some layer of the list carries the entity's layer
    identifier, and the first one that does is visible. *)
Definition ownerVisible (layers : list Layer) (ent : Entity) : Prop :=
  exists before l after,
    layers = (before ++ l :: after)%list /\
    layer_id l = layerId ent /\
    Forall (fun l' => layer_id l' <> layerId ent) before /\
    layer_visible l = true.

(** What the select-click may return: an entity whose owning layer exists
    and is visible and whose variant test passes. *)
Definition pickable (layers : list Layer) (zoom : R) (p : Point)
    (ent : Entity) : Prop :=
  ownerVisible layers ent /\ variantTest zoom p ent = true.

(** An entity the select-click may return: its owning layer exists and is
    visible, and its variant test passes. *)
Definition selectable (layers : list Layer) (zoom : R) (p : Point)
    (ent : Entity) : Prop :=
  (exists l, findLayer layers (layerId ent) = Some l /\ layer_visible l = true) /\
  variantTest zoom p ent = true.

(** The entity that the two-click protocol of a tool builds from the anchor
    [p1] and the last pointer position [p2]; the Arc and Text tools build
    none. *)
Definition drawnEntity (t : ToolType) (common : BaseEntity) (p1 p2 : Point)
    : option Entity :=
  match t with
  | LINE => Some (LineEntity common p1 p2)
  | RECTANGLE =>
      Some (RectEntity common (pt_x p1) (pt_y p1)
              (pt_x p2 - pt_x p1) (pt_y p2 - pt_y p1))
  | CIRCLE => Some (CircleEntity common (pt_x p1) (pt_y p1) (distance p1 p2))
  | _ => None
  end.

(** What holds of a preview entity: drawing is in progress, the preview is
    anchored at the start point, it is no text entity, and a circle has no
    negative radius. *)
Definition previewAnchored (s : State) : Prop :=
  match previewEntity s with
  | None => True
  | Some pe =>
      isDrawing s = true /\
      match pe with
      | LineEntity _ st _ => startPoint s = Some st
      | RectEntity _ x y _ _ => startPoint s = Some (mkPoint x y)
      | CircleEntity _ cx cy r => startPoint s = Some (mkPoint cx cy) /\ 0 <= r
      | TextEntity _ _ _ _ _ => False
      end
  end.

Definition isTextEntity (e : Entity) : bool :=
  match e with
  | TextEntity _ _ _ _ _ => true
  | _ => false
  end.

(** The screen position of a pointer event. *)
Definition clientPos (e : MouseEvent) : Point := mkPoint (clientX e) (clientY e).

(** The types the generation service recognises. *)
Definition knownType (item : GeminiItem) : bool :=
  String.eqb (item_type item) "line" || String.eqb (item_type item) "circle" ||
  String.eqb (item_type item) "rect" || String.eqb (item_type item) "text".

(** The records of a list of entities, one after the other. *)
Fixpoint records (fmtOther : R -> string) (ents : list Entity) : string :=
  match ents with
  | [] => EmptyString
  | ent :: rest => entityRecord fmtOther ent ++ records fmtOther rest
  end.

(** * Properties *)

(** The event-loop case of a prompt submission: split on the blank prompt
    and finish with [tac]. *)
Ltac gemini_submit_case tac :=
  match goal with
  | |- Some (handleGeminiSubmit ?p ?s) = Some _ -> _ =>
      intros [= <-]; unfold handleGeminiSubmit; destruct (isBlank p); tac
  end.

(** Case analysis on the scrutinee of a [match] or [if] in the goal. *)
Ltac break_match :=
  match goal with
  | |- context [match ?x with _ => _ end] => destruct x eqn:?
  | |- context [if ?x then _ else _] => destruct x eqn:?
  end.

(** ** Facts about the comparisons *)

Lemma Rltb_true a b : Rltb a b = true <-> a < b.
Proof. unfold Rltb; destruct (Rlt_dec a b); split; intros; easy. Qed.

Lemma Rltb_false a b : Rltb a b = false <-> ~ a < b.
Proof. unfold Rltb; destruct (Rlt_dec a b); split; intros; easy. Qed.

Lemma Rleb_true a b : Rleb a b = true <-> a <= b.
Proof. unfold Rleb; destruct (Rle_dec a b); split; intros; easy. Qed.

Lemma Rleb_false a b : Rleb a b = false <-> ~ a <= b.
Proof. unfold Rleb; destruct (Rle_dec a b); split; intros; easy. Qed.

Lemma Reqb_true a b : Reqb a b = true <-> a = b.
Proof. unfold Reqb; destruct (Req_dec_T a b); split; intros; easy. Qed.

Lemma Reqb_false a b : Reqb a b = false <-> a <> b.
Proof. unfold Reqb; destruct (Req_dec_T a b); split; intros; easy. Qed.

(** ** Coordinate transforms *)

(** C4: for every zoom [z > 0], every pan offset and every screen point,
    [worldToScreen] applied to the result of [screenToWorld] with the same
    pan and zoom gives the screen point back (exact arithmetic). *)
Theorem worldToScreen_screenToWorld (sx sy px py z : R) :
  0 < z ->
  let w := screenToWorld sx sy px py z in
  worldToScreen (pt_x w) (pt_y w) px py z = mkPoint sx sy.
Proof.
  intros Hz; cbn.
  unfold worldToScreen; cbn.
  f_equal; field; lra.
Qed.

Lemma worldToScreen_screenToWorld_witness :
  0 < 2 /\
  worldToScreen (pt_x (screenToWorld 7 3 1 1 2)) (pt_y (screenToWorld 7 3 1 1 2))
    1 1 2 = mkPoint 7 3.
Proof.
  split; [lra | apply (worldToScreen_screenToWorld 7 3 1 1 2); lra].
Defined.

(** ** Hit test *)

Lemma rect_variantTest_bounds b x y w h zoom p :
  variantTest zoom p (RectEntity b x y w h) = true <->
  (x <= pt_x p <= x + w) /\ (y <= pt_y p <= y + h).
Proof.
  cbn. unfold Rgeb. rewrite !andb_true_iff, !Rleb_true. tauto.
Qed.

Lemma hitPredicate_selectable layers zoom p ent :
  hitPredicate layers zoom p ent = true <-> selectable layers zoom p ent.
Proof.
  unfold hitPredicate, selectable, layerVisible.
  destruct (findLayer layers (layerId ent)) as [l|] eqn:Hl; cbn.
  - destruct (layer_visible l) eqn:Hv; cbn.
    + split; [intros H; split; [exists l; auto | exact H] | intros [_ H]; exact H].
    + split; [discriminate |].
      intros [[l' [Heq Hv']] _]. injection Heq as <-. congruence.
  - split; [discriminate | intros [[l' [Heq _]] _]; discriminate].
Qed.

Lemma hitPredicate_false layers zoom p ent :
  hitPredicate layers zoom p ent = false <-> ~ selectable layers zoom p ent.
Proof.
  rewrite <- hitPredicate_selectable.
  destruct (hitPredicate layers zoom p ent); split; congruence.
Qed.

(** [find] on a reversed list returns the last element that passes. *)
Lemma find_rev_Some {A} (f : A -> bool) (l : list A) (a : A) :
  find f (rev l) = Some a <->
  exists before after,
    l = (before ++ a :: after)%list /\ f a = true /\
    Forall (fun b => f b = false) after.
Proof.
  induction l as [|h t IH] using rev_ind.
  - cbn; split; [discriminate |].
    intros (before & after & H & _); destruct before; discriminate.
  - rewrite rev_app_distr; cbn.
    destruct (f h) eqn:Hh.
    + split.
      * intros [= <-]. exists t, []. auto.
      * intros (before & after & H & Ha & Hall).
        destruct after as [|x after'] using rev_ind.
        -- apply app_inj_tail in H as [_ ->]. reflexivity.
        -- clear IHafter'.
           rewrite app_comm_cons, app_assoc in H.
           apply app_inj_tail in H as [_ ->].
           apply Forall_app in Hall as [_ Hx].
           inversion Hx; congruence.
    + rewrite IH; split.
      * intros (before & after & -> & Ha & Hall).
        exists before, (after ++ [h])%list.
        rewrite app_comm_cons, app_assoc. repeat split; auto.
        apply Forall_app; auto.
      * intros (before & after & H & Ha & Hall).
        destruct after as [|x after'] using rev_ind.
        -- apply app_inj_tail in H as [_ ->]. congruence.
        -- clear IHafter'.
           rewrite app_comm_cons, app_assoc in H.
           apply app_inj_tail in H as [-> ->].
           apply Forall_app in Hall as [Hall _].
           exists before, after'. auto.
Qed.

Lemma find_rev_None {A} (f : A -> bool) (l : list A) :
  find f (rev l) = None <-> Forall (fun b => f b = false) l.
Proof.
  rewrite Forall_forall; split.
  - intros H x Hx. apply (find_none _ _ H). now apply in_rev in Hx.
  - intros H. destruct (find f (rev l)) as [a|] eqn:Hf; [|reflexivity].
    apply find_some in Hf as [Hin Ha]. apply in_rev in Hin.
    rewrite (H _ Hin) in Ha. discriminate.
Qed.

Lemma Forall_not_selectable layers zoom p (l : list Entity) :
  Forall (fun b => hitPredicate layers zoom p b = false) l <->
  Forall (fun e => ~ selectable layers zoom p e) l.
Proof.
  rewrite !Forall_forall; split; intros H x Hx; apply hitPredicate_false; auto.
Qed.

Lemma hitTest_Some_iff layers p zoom ents e :
  hitTest ents layers p zoom = Some e <->
  exists before after,
    ents = (before ++ e :: after)%list /\
    selectable layers zoom p e /\
    Forall (fun later => ~ selectable layers zoom p later) after.
Proof.
  unfold hitTest. rewrite find_rev_Some.
  split; intros (before & after & H1 & H2 & H3); exists before, after;
    (split; [exact H1 | split; [apply hitPredicate_selectable; exact H2
                               | apply Forall_not_selectable; exact H3]]).
Qed.

Lemma hitTest_None_iff layers p zoom ents :
  hitTest ents layers p zoom = None <->
  Forall (fun e => ~ selectable layers zoom p e) ents.
Proof.
  unfold hitTest. rewrite find_rev_None. apply Forall_not_selectable.
Qed.

(** The select-click, once past the pan and canvas checks. *)
Lemma handleMouseDown_select rect newId e s :
  tool s = SELECT -> (button e =? 1)%Z = false ->
  handleMouseDown (Some rect) newId e s =
  Some (setSelectedIds
          match hitTest (entities s) (layers s) (eventWorldPos rect e s)
                  (view_zoom (view s)) with
          | Some hit => [id hit]
          | None => []
          end s).
Proof.
  intros Ht Hb. unfold handleMouseDown. rewrite Ht, Hb.
  destruct (hitTest _ _ _ _); reflexivity.
Qed.

(** [find] returns the first element that passes. *)
Lemma find_first_split {A} (f : A -> bool) (l : list A) (a : A) :
  find f l = Some a <->
  exists before after,
    l = (before ++ a :: after)%list /\ f a = true /\
    Forall (fun b => f b = false) before.
Proof.
  induction l as [|h t IH]; cbn.
  - split; [discriminate |].
    intros (before & after & H & _). destruct before; discriminate.
  - destruct (f h) eqn:Hh.
    + split.
      * intros [= <-]. exists [], t. auto.
      * intros (before & after & H & Ha & Hall).
        destruct before as [|b before]; cbn in H.
        -- now injection H as ->.
        -- injection H as <- _. inversion Hall; congruence.
    + rewrite IH. split.
      * intros (before & after & -> & Ha & Hall).
        exists (h :: before), after. auto.
      * intros (before & after & H & Ha & Hall).
        destruct before as [|b before]; cbn in H.
        -- injection H as <- _. congruence.
        -- injection H as <- ->. inversion Hall; subst.
           exists before, after. auto.
Qed.

Lemma ownerVisible_lookup layers ent :
  ownerVisible layers ent <->
  exists l, findLayer layers (layerId ent) = Some l /\ layer_visible l = true.
Proof.
  unfold ownerVisible, findLayer. split.
  - intros (before & l & after & Hl & Hid & Hb & Hv).
    exists l. split; [| exact Hv].
    apply find_first_split. exists before, after.
    split; [exact Hl |]. split; [now apply String.eqb_eq |].
    eapply Forall_impl; [| exact Hb]. intros l' Hl'. now apply String.eqb_neq.
  - intros (l & Hf & Hv).
    apply find_first_split in Hf as (before & after & Hl & Hid & Hb).
    exists before, l, after.
    split; [exact Hl |]. split; [now apply String.eqb_eq |]. split; [| exact Hv].
    eapply Forall_impl; [| exact Hb]. intros l' Hl'. now apply String.eqb_neq.
Qed.

Lemma selectable_pickable layers zoom p ent :
  selectable layers zoom p ent <-> pickable layers zoom p ent.
Proof.
  unfold selectable, pickable. now rewrite ownerVisible_lookup.
Qed.

Lemma Forall_not_pickable layers zoom p (l : list Entity) :
  Forall (fun e => ~ selectable layers zoom p e) l <->
  Forall (fun e => ~ pickable layers zoom p e) l.
Proof.
  rewrite !Forall_forall. split; intros H x Hx Hs; apply (H x Hx);
    now apply selectable_pickable.
Qed.

(** C2: the select-click hit test returns the most recently inserted entity
    whose owning layer exists and is visible and whose variant test passes
    (every entity inserted after it fails one of the two), and no match when
    no entity passes.  An entity whose layer identifier no layer carries, or
    whose layer is hidden, is never returned; an empty entity list gives no
    match; of two entities that both pass at the point, the one inserted
    later wins. *)
Theorem hitTest_topmost (layers : list Layer) (p : Point) (zoom : R) :
  hitTest [] layers p zoom = None /\
  (forall ents e,
      hitTest ents layers p zoom = Some e <->
      exists before after,
        ents = (before ++ e :: after)%list /\
        pickable layers zoom p e /\
        Forall (fun later => ~ pickable layers zoom p later) after) /\
  (forall ents,
      hitTest ents layers p zoom = None <->
      Forall (fun e => ~ pickable layers zoom p e) ents) /\
  (forall ents e,
      hitTest ents layers p zoom = Some e ->
      exists l, In l layers /\ layer_id l = layerId e /\ layer_visible l = true) /\
  (forall ents e,
      Forall (fun l => layer_id l <> layerId e) layers ->
      hitTest ents layers p zoom <> Some e) /\
  (forall ents e hidden rest,
      layers = (hidden :: rest)%list ->
      layer_id hidden = layerId e -> layer_visible hidden = false ->
      hitTest ents layers p zoom <> Some e) /\
  (forall ents e1 between e2,
      pickable layers zoom p e1 ->
      pickable layers zoom p e2 ->
      hitTest (ents ++ e1 :: between ++ [e2])%list layers p zoom = Some e2).
Proof.
  assert (Hsome : forall ents e,
      hitTest ents layers p zoom = Some e <->
      exists before after,
        ents = (before ++ e :: after)%list /\
        pickable layers zoom p e /\
        Forall (fun later => ~ pickable layers zoom p later) after).
  { intros ents e. rewrite hitTest_Some_iff.
    split; intros (before & after & H1 & H2 & H3); exists before, after;
      (split; [exact H1 |]); (split; [now apply selectable_pickable |]);
      now apply Forall_not_pickable. }
  assert (Howner : forall ents e,
      hitTest ents layers p zoom = Some e -> ownerVisible layers e).
  { intros ents e H. apply Hsome in H as (_ & _ & _ & [Ho _] & _). exact Ho. }
  split; [reflexivity |]. split; [exact Hsome |].
  split; [intros ents; rewrite hitTest_None_iff; apply Forall_not_pickable |].
  split; [| split; [| split]].
  - intros ents e H.
    destruct (Howner ents e H) as (before & l & after & -> & Hid & _ & Hv).
    exists l. split; [apply in_elt | auto].
  - intros ents e Hnone H.
    destruct (Howner ents e H) as (before & l & after & -> & Hid & _ & _).
    apply Forall_elt in Hnone. contradiction.
  - intros ents e hidden rest -> Hid Hv H.
    destruct (Howner ents e H) as (before & l & after & Hl & Hid' & Hb & Hv').
    destruct before as [|b before]; cbn in Hl.
    + injection Hl as -> _. congruence.
    + injection Hl as -> _. inversion Hb; contradiction.
  - intros ents e1 between e2 _ H2. apply Hsome.
    exists (ents ++ e1 :: between)%list, [].
    rewrite <- app_assoc. cbn. auto.
Qed.

(** The rectangles [a] on layer "0", [b] on layer "1" and [c] on a layer
    that does not exist all cover (12,12); with layer "1" shown the latest
    entity on an existing layer, [b], is returned. *)
Lemma hitTest_topmost_witness :
  let a := RectEntity (mkBase "a" "0" None None) 10 10 5 5 in
  let b := RectEntity (mkBase "b" "1" None None) 11 11 5 5 in
  let c := RectEntity (mkBase "c" "gone" None None) 11 11 5 5 in
  hitTest [a; b; c] INITIAL_LAYERS (mkPoint 12 12) 1 = Some b.
Proof.
  cbv zeta.
  apply (proj1 (proj2 (hitTest_topmost INITIAL_LAYERS (mkPoint 12 12) 1))).
  exists [RectEntity (mkBase "a" "0" None None) 10 10 5 5],
         [RectEntity (mkBase "c" "gone" None None) 11 11 5 5].
  split; [reflexivity |]. split.
  - split.
    + exists [mkLayer "0" "0 (Default)" "#ffffff" true false],
             (mkLayer "1" "Construction" "#38bdf8" true false),
             [mkLayer "2" "Dimensions" "#fbbf24" true false].
      split; [reflexivity |]. split; [reflexivity |]. split; [| reflexivity].
      constructor; [discriminate | constructor].
    + apply rect_variantTest_bounds; cbn; lra.
  - constructor; [| constructor].
    intros [(before & l & after & Hl & Hid & _) _].
    assert (Hin : In l INITIAL_LAYERS) by (rewrite Hl; apply in_elt).
    cbn in Hin, Hid.
    destruct Hin as [<- | [<- | [<- | []]]]; discriminate.
Defined.

(** ** Rectangles *)

Lemma rect_variantTest b x y w h zoom p :
  variantTest zoom p (RectEntity b x y w h) = true <->
  (x <= pt_x p <= x + w) /\ (y <= pt_y p <= y + h).
Proof.
  cbn. unfold Rgeb. rewrite !andb_true_iff, !Rleb_true. tauto.
Qed.

(** C1, as the code has it: a rectangle entity on a visible layer accepts a
    world point iff [x <= px <= x + width] and [y <= py <= y + height], with
    width and height taken as stored.  For a non-negative width and height
    these are the rectangle's bounds, interior and boundary included; a
    rectangle whose width or height is negative accepts no point. *)
Theorem rect_hit_stored_bounds (layers : list Layer) (zoom : R) (p : Point)
    (b : BaseEntity) (x y width height : R) :
  layerVisible layers (ent_layerId b) = true ->
  let ent := RectEntity b x y width height in
  (hitPredicate layers zoom p ent = true <->
   (x <= pt_x p <= x + width) /\ (y <= pt_y p <= y + height)) /\
  (0 <= width -> 0 <= height ->
   (hitPredicate layers zoom p ent = true <->
    inNormalizedBounds p x y width height)) /\
  (width < 0 \/ height < 0 -> hitPredicate layers zoom p ent = false).
Proof.
  intros Hvis ent.
  assert (Hp : hitPredicate layers zoom p ent = variantTest zoom p ent).
  { unfold hitPredicate, ent, layerId; cbn. rewrite Hvis. reflexivity. }
  rewrite Hp. unfold ent. split; [apply rect_variantTest |]. split.
  - intros Hw Hh. rewrite rect_variantTest. unfold inNormalizedBounds.
    rewrite !Rmin_left, !Rmax_right by lra. tauto.
  - intros Hneg.
    destruct (variantTest zoom p (RectEntity b x y width height)) eqn:E;
      [|reflexivity].
    apply rect_variantTest in E. lra.
Qed.

Lemma INITIAL_LAYERS_visible_0 : layerVisible INITIAL_LAYERS "0" = true.
Proof. reflexivity. Qed.

Lemma rect_hit_stored_bounds_witness :
  layerVisible INITIAL_LAYERS "0" = true /\
  (hitPredicate INITIAL_LAYERS 1 (mkPoint 12 11)
     (RectEntity (mkBase "r" "0" None None) 10 10 5 5) = true <->
   (10 <= 12 <= 10 + 5) /\ (10 <= 11 <= 10 + 5)).
Proof.
  split; [reflexivity |].
  apply (rect_hit_stored_bounds INITIAL_LAYERS 1 (mkPoint 12 11)
           (mkBase "r" "0" None None) 10 10 5 5).
  reflexivity.
Defined.

(** C1, as stated, fails: the rectangle anchored at (10,10) with width -5 and
    height -5 covers the square from (5,5) to (10,10); the point (7,7) lies
    inside these normalised bounds, yet a select-click there finds nothing
    and leaves the selection empty. *)
Lemma rect_negative_size_missed :
  let ent := RectEntity (mkBase "r" "0" None None) 10 10 (-5) (-5) in
  let s := setEntities [ent] initialState in
  inNormalizedBounds (mkPoint 7 7) 10 10 (-5) (-5) /\
  hitTest [ent] INITIAL_LAYERS (mkPoint 7 7) 1 = None /\
  handleMouseDown (Some (mkRect 0 0)) "n" (mkMouse 7 7 0) s
  = Some (setSelectedIds [] s).
Proof.
  cbv zeta.
  assert (Hmiss : forall q,
    hitTest [RectEntity (mkBase "r" "0" None None) 10 10 (-5) (-5)]
      INITIAL_LAYERS q 1 = None).
  { intros q. apply hitTest_None_iff.
    constructor; [|constructor].
    intros [_ Hv]. apply rect_variantTest in Hv. lra. }
  split; [|split].
  - unfold inNormalizedBounds; cbn.
    rewrite !Rmin_right, !Rmax_left by lra. lra.
  - apply Hmiss.
  - rewrite handleMouseDown_select by reflexivity.
    cbn [entities layers setEntities initialState]. rewrite Hmiss. reflexivity.
Qed.

(** ** Circles and lines *)

Lemma hitPredicate_visible layers zoom p ent :
  layerVisible layers (layerId ent) = true ->
  hitPredicate layers zoom p ent = variantTest zoom p ent.
Proof. intros H. unfold hitPredicate. rewrite H. reflexivity. Qed.


Lemma distance_nonneg p q : 0 <= distance p q.
Proof. apply sqrt_pos. Qed.

Lemma distance_self p : distance p p = 0.
Proof.
  unfold distance.
  replace ((pt_x p - pt_x p) ^ 2 + (pt_y p - pt_y p) ^ 2) with 0 by ring.
  apply sqrt_0.
Qed.







(** ** Wheel zoom *)

Lemma handleWheel_zoom_in d s :
  d < 0 -> view_zoom (view (handleWheel d s)) = view_zoom (view s) * 1.1.
Proof.
  intros Hd. unfold handleWheel; cbn.
  replace (Rltb d 0) with true by (symmetry; now apply Rltb_true).
  reflexivity.
Qed.

Lemma handleWheel_zoom_out d s :
  ~ d < 0 -> view_zoom (view (handleWheel d s)) = view_zoom (view s) / 1.1.
Proof.
  intros Hd. unfold handleWheel; cbn.
  replace (Rltb d 0) with false by (symmetry; now apply Rltb_false).
  reflexivity.
Qed.

Lemma wheelTimes_zoom_in n d s :
  d < 0 ->
  view_zoom (view (wheelTimes n d s)) = view_zoom (view s) * 1.1 ^ n.
Proof.
  intros Hd. induction n as [|n IH]; cbn [wheelTimes pow].
  - ring.
  - rewrite handleWheel_zoom_in, IH by exact Hd. ring.
Qed.

Lemma wheelTimes_zoom_out n d s :
  ~ d < 0 ->
  view_zoom (view (wheelTimes n d s)) = view_zoom (view s) / 1.1 ^ n.
Proof.
  intros Hd. induction n as [|n IH]; cbn [wheelTimes pow].
  - field.
  - rewrite handleWheel_zoom_out, IH by exact Hd.
    field. split; [apply pow_nonzero |]; lra.
Qed.

(** Powers of the scale factor pass every bound. *)
Lemma scale_pow_unbounded (bound : R) : exists n : nat, bound < 1.1 ^ n.
Proof.
  destruct (Pow_x_infinity 1.1) with (b := bound + 1) as [N HN].
  - rewrite Rabs_right; lra.
  - exists N. specialize (HN N (Nat.le_refl N)).
    rewrite Rabs_right in HN.
    + lra.
    + apply Rle_ge, pow_le. lra.
Qed.

(** C8: one wheel event multiplies the zoom by 1.1 when [deltaY < 0] and
    divides it by 1.1 otherwise; the pan offset and everything else outside
    the view stay as they were.  Nothing bounds the zoom: repeated zoom-in
    events pass every upper bound and repeated zoom-out events fall below
    every positive lower bound. *)
Theorem handleWheel_scales_zoom (deltaY : R) (s : State) :
  let s' := handleWheel deltaY s in
  (deltaY < 0 -> view_zoom (view s') = view_zoom (view s) * 1.1) /\
  (~ deltaY < 0 -> view_zoom (view s') = view_zoom (view s) / 1.1) /\
  view_x (view s') = view_x (view s) /\
  view_y (view s') = view_y (view s) /\
  s' = setView (view s') s /\
  (0 < view_zoom (view s) ->
   forall bound, exists n,
     bound < view_zoom (view (wheelTimes n (-1) s))) /\
  (0 < view_zoom (view s) ->
   forall bound, 0 < bound -> exists n,
     view_zoom (view (wheelTimes n 1 s)) < bound).
Proof.
  cbv zeta.
  split; [apply handleWheel_zoom_in |].
  split; [apply handleWheel_zoom_out |].
  split; [reflexivity |]. split; [reflexivity |]. split; [reflexivity |].
  split.
  - intros Hz bound.
    destruct (scale_pow_unbounded (bound / view_zoom (view s))) as [n Hn].
    exists n. rewrite wheelTimes_zoom_in by lra.
    apply (Rmult_lt_compat_l (view_zoom (view s))) in Hn; [|exact Hz].
    replace (view_zoom (view s) * (bound / view_zoom (view s))) with bound in Hn
      by (field; lra).
    exact Hn.
  - intros Hz bound Hb.
    destruct (scale_pow_unbounded (view_zoom (view s) / bound)) as [n Hn].
    exists n. rewrite wheelTimes_zoom_out by lra.
    assert (Hp : 0 < 1.1 ^ n) by (apply pow_lt; lra).
    apply (Rmult_lt_compat_l bound) in Hn; [|exact Hb].
    replace (bound * (view_zoom (view s) / bound)) with (view_zoom (view s)) in Hn
      by (field; lra).
    apply (Rmult_lt_reg_r (1.1 ^ n)); [exact Hp |].
    replace (view_zoom (view s) / 1.1 ^ n * 1.1 ^ n) with (view_zoom (view s))
      by (field; lra).
    exact Hn.
Qed.

(** ** Draw-tool protocol *)

Lemma getActiveLayer_nonempty s :
  layers s <> [] -> exists active, getActiveLayer s = Some active.
Proof.
  intros Hne. unfold getActiveLayer.
  destruct (findLayer (layers s) (activeLayerId s)) as [l|]; [now exists l |].
  destruct (layers s) as [|l0 rest]; [contradiction | now exists l0].
Qed.

(** The first click of a drawing tool. *)
Lemma handleMouseDown_start rect newId e s active :
  tool s = RECTANGLE -> button e <> 1%Z -> isDrawing s = false ->
  getActiveLayer s = Some active ->
  handleMouseDown (Some rect) newId e s =
  Some (setPreviewEntity
          (Some (RectEntity
                   (mkBase newId (activeLayerId s) (Some (layer_color active))
                      (Some false))
                   (pt_x (eventWorldPos rect e s))
                   (pt_y (eventWorldPos rect e s)) 0 0))
          (setStartPoint (Some (eventWorldPos rect e s))
             (setIsDrawing true s))).
Proof.
  intros Ht Hb Hd Ha. apply Z.eqb_neq in Hb.
  unfold handleMouseDown. rewrite Ht, Hb, Hd, Ha. reflexivity.
Qed.

(** The second click of a drawing tool. *)
Lemma handleMouseDown_commit rect newId e s pe :
  tool s = RECTANGLE -> button e <> 1%Z -> isDrawing s = true ->
  previewEntity s = Some pe ->
  handleMouseDown (Some rect) newId e s =
  Some (setStartPoint None
          (setIsDrawing false
             (addToHistory ("Created " ++ entityType pe)
                (setPreviewEntity None
                   (setEntities (entities s ++ [pe])%list s))))).
Proof.
  intros Ht Hb Hd Hp. apply Z.eqb_neq in Hb.
  unfold handleMouseDown. rewrite Ht, Hb, Hd, Hp. reflexivity.
Qed.

(** C3: with the Rectangle tool active, no drawing and no pan drag in
    progress, a pointer-down at world (10,10), a pointer-move to world
    (50,40) and a second pointer-down append exactly one rectangle entity
    with x = 10, y = 10, width = 40, height = 30, owned by the active layer,
    to the end of the entity list; the machine is idle again and the preview
    is cleared. *)
Theorem rectangle_two_click_commit (s : State) (rect : DOMRect)
    (id1 id2 : string) (e1 e2 e3 : MouseEvent) :
  tool s = RECTANGLE ->
  isDrawing s = false ->
  dragStart s = None ->
  layers s <> [] ->
  button e1 <> 1%Z ->
  button e3 <> 1%Z ->
  eventWorldPos rect e1 s = mkPoint 10 10 ->
  eventWorldPos rect e2 s = mkPoint 50 40 ->
  exists (active : Layer) (s' : State),
    getActiveLayer s = Some active /\
    run [MouseDown (Some rect) id1 e1; MouseMove (Some rect) e2;
         MouseDown (Some rect) id2 e3] s = Some s' /\
    entities s' =
      (entities s ++
       [RectEntity
          (mkBase id1 (activeLayerId s) (Some (layer_color active)) (Some false))
          10 10 40 30])%list /\
    isDrawing s' = false /\
    previewEntity s' = None /\
    startPoint s' = None /\
    tool s' = RECTANGLE /\
    selectedIds s' = selectedIds s /\
    view s' = view s.
Proof.
  intros Ht Hd Hdrag Hne Hb1 Hb3 Hw1 Hw2.
  destruct (getActiveLayer_nonempty s Hne) as [active Ha].
  exists active. eexists. split; [exact Ha |].
  cbn [run step].
  rewrite (handleMouseDown_start rect id1 e1 s active Ht Hb1 Hd Ha).
  rewrite Hw1. cbn [pt_x pt_y].
  set (s1 := setPreviewEntity _ _).
  assert (Hmove : handleMouseMove (Some rect) e2 s1 =
    setPreviewEntity
      (Some (RectEntity
               (mkBase id1 (activeLayerId s) (Some (layer_color active))
                  (Some false)) 10 10 (50 - 10) (40 - 10)))
      (setMousePos (mkPoint 50 40) s1)).
  { unfold handleMouseMove.
    change (eventWorldPos rect e2 s1) with (eventWorldPos rect e2 s).
    rewrite Hw2. subst s1. cbn. rewrite Hdrag. reflexivity. }
  rewrite Hmove.
  erewrite handleMouseDown_commit;
    [| exact Ht | exact Hb3 | reflexivity | reflexivity ].
  split; [reflexivity |].
  cbn. repeat split; try assumption.
  do 3 f_equal; lra.
Qed.

Lemma rectangle_two_click_commit_witness :
  let s := setTool RECTANGLE initialState in
  let canvas := Some (mkRect 0 0) in
  exists (active : Layer) (s' : State),
    getActiveLayer s = Some active /\
    run [MouseDown canvas "a" (mkMouse 10 10 0); MouseMove canvas (mkMouse 50 40 0);
         MouseDown canvas "b" (mkMouse 50 40 0)] s = Some s' /\
    entities s' =
      (entities s ++
       [RectEntity
          (mkBase "a" (activeLayerId s) (Some (layer_color active)) (Some false))
          10 10 40 30])%list /\
    isDrawing s' = false /\
    previewEntity s' = None /\
    startPoint s' = None /\
    tool s' = RECTANGLE /\
    selectedIds s' = selectedIds s /\
    view s' = view s.
Proof.
  cbv zeta.
  apply (rectangle_two_click_commit (setTool RECTANGLE initialState)
           (mkRect 0 0) "a" "b" (mkMouse 10 10 0) (mkMouse 50 40 0)
           (mkMouse 50 40 0)).
  - reflexivity.
  - reflexivity.
  - reflexivity.
  - discriminate.
  - discriminate.
  - discriminate.
  - unfold eventWorldPos, screenToWorld; cbn. f_equal; field.
  - unfold eventWorldPos, screenToWorld; cbn. f_equal; field.
Defined.

(** ** Selection *)

Lemma handleDelete_selection s : selectedIds (handleDelete s) = [].
Proof.
  unfold handleDelete. destruct (selectedIds s) eqn:E; [exact E | reflexivity].
Qed.

Lemma handleKey_selection key s :
  selectedIds (handleKey key s) = [] \/
  selectedIds (handleKey key s) = selectedIds s.
Proof.
  unfold handleKey.
  destruct (String.eqb key "Escape"); [left; reflexivity |].
  destruct (String.eqb key "Delete"); [left; apply handleDelete_selection | now right].
Qed.

Lemma hitTest_In ents layers p zoom hit :
  hitTest ents layers p zoom = Some hit -> In hit ents.
Proof.
  unfold hitTest. intros H. apply find_some in H as [H _]. now apply in_rev.
Qed.

Lemma handleMouseDown_selection canvas newId e s s' :
  handleMouseDown canvas newId e s = Some s' ->
  selectedIds s' = selectedIds s \/ selectedIds s' = [] \/
  exists hit, In hit (entities s) /\ selectedIds s' = [id hit].
Proof.
  unfold handleMouseDown.
  destruct canvas as [rect|].
  - destruct (tool s); destruct (button e =? 1)%Z;
      try (intros [= <-]; left; reflexivity);
      try (destruct (isDrawing s); cbn [negb];
           [ destruct (previewEntity s); intros [= <-]; left; reflexivity
           | destruct (getActiveLayer s); intros [= <-]; left; reflexivity ]).
    destruct (hitTest _ _ _ _) as [hit|] eqn:Hhit; intros [= <-]; right.
    + right. exists hit. split; [eapply hitTest_In; exact Hhit | reflexivity].
    + left. reflexivity.
  - destruct (tool s); intros [= <-]; left; reflexivity.
Qed.

Lemma handleMouseMove_selection canvas e s :
  selectedIds (handleMouseMove canvas e s) = selectedIds s.
Proof.
  unfold handleMouseMove. destruct canvas; [|reflexivity].
  repeat break_match; reflexivity.
Qed.

Lemma step_selection ev s s' :
  step ev s = Some s' ->
  selectedIds s' = selectedIds s \/ selectedIds s' = [] \/
  exists hit, In hit (entities s) /\ selectedIds s' = [id hit].
Proof.
  destruct ev; cbn [step];
    try (intros [= <-]; left; reflexivity);
    try gemini_submit_case ltac:(left; reflexivity).
  - apply handleMouseDown_selection.
  - intros [= <-]. left. apply handleMouseMove_selection.
  - intros [= <-]. left. unfold handleMouseUp. destruct (dragStart s); reflexivity.
  - intros [= <-]. destruct (handleKey_selection key s); auto.
  - intros [= <-]. right; left. apply handleDelete_selection.
  - intros [= <-]. left. unfold handleCommand. repeat break_match; reflexivity.
  - intros [= <-]. left. unfold handleLayerSelect. break_match; reflexivity.
  - intros [= <-]. left. unfold handleToggleVisible. break_match; reflexivity.
  - intros [= <-]. left. unfold handleToggleLock. break_match; reflexivity.
  - intros [= <-]. left. unfold handleGeminiResult. break_match; reflexivity.
Qed.

Lemma reachable_selection s :
  reachable s -> (List.length (selectedIds s) <= 1)%nat.
Proof.
  induction 1 as [|s ev s' _ IH Hstep].
  - cbn. lia.
  - destruct (step_selection ev s s' Hstep) as [-> | [-> | (hit & _ & ->)]];
      cbn; lia.
Qed.

(** C10: in every reachable state the selection holds at most one entity
    identifier.  A select-click sets it to the identifier of the single hit
    entity, or to empty on a miss; the delete action and the Delete and
    Escape keys leave it empty; every event leaves the selection unchanged,
    empty, or holding one identifier of a committed entity. *)
Theorem selection_at_most_one (s : State) :
  reachable s ->
  (List.length (selectedIds s) <= 1)%nat /\
  (forall rect newId e,
      tool s = SELECT -> button e <> 1%Z ->
      exists s',
        handleMouseDown (Some rect) newId e s = Some s' /\
        selectedIds s' =
          match hitTest (entities s) (layers s) (eventWorldPos rect e s)
                  (view_zoom (view s)) with
          | Some hit => [id hit]
          | None => []
          end) /\
  selectedIds (handleDelete s) = [] /\
  selectedIds (handleKey "Delete" s) = [] /\
  selectedIds (handleKey "Escape" s) = [] /\
  (forall ev s',
      step ev s = Some s' ->
      reachable s' /\ (List.length (selectedIds s') <= 1)%nat).
Proof.
  intros Hr. split; [now apply reachable_selection |].
  split.
  - intros rect newId e Ht Hb. eexists. split.
    + apply handleMouseDown_select; [exact Ht | now apply Z.eqb_neq].
    + reflexivity.
  - split; [apply handleDelete_selection |].
    split; [apply handleDelete_selection |].
    split; [reflexivity |].
    intros ev s' Hstep.
    assert (Hr' : reachable s') by (eapply reachable_step; eassumption).
    split; [exact Hr' | now apply reachable_selection].
Qed.

(** A rectangle arrives from the generation service; a select-click inside
    it selects it, alone, and the Delete key then empties the selection. *)
Lemma selection_at_most_one_witness :
  let rect := RectEntity (mkBase "r" "0" None None) 10 10 5 5 in
  let s := handleGeminiResult (Some [rect]) initialState in
  exists s',
    handleMouseDown (Some (mkRect 0 0)) "n" (mkMouse 12 11 0) s = Some s' /\
    selectedIds s' = ["r"] /\
    (List.length (selectedIds s') <= 1)%nat /\
    selectedIds (handleKey "Delete" s') = [].
Proof.
  cbv zeta.
  set (rect := RectEntity (mkBase "r" "0" None None) 10 10 5 5).
  assert (Hr : reachable (handleGeminiResult (Some [rect]) initialState)).
  { apply (reachable_step initialState (GeminiResult (Some [rect])));
      [apply reachable_init | reflexivity]. }
  destruct (selection_at_most_one _ Hr) as (_ & Hclick & _ & _ & _ & Hstep).
  destruct (Hclick (mkRect 0 0) "n" (mkMouse 12 11 0) eq_refl)
    as (s' & Hdown & Hsel); [discriminate |].
  destruct (Hstep (MouseDown (Some (mkRect 0 0)) "n" (mkMouse 12 11 0)) s' Hdown)
    as [Hr' Hlen].
  exists s'. split; [exact Hdown |]. split; [| split; [exact Hlen |]].
  - rewrite Hsel.
    assert (Hhit : forall q,
      10 <= pt_x q <= 10 + 5 -> 10 <= pt_y q <= 10 + 5 ->
      hitTest [rect] INITIAL_LAYERS q 1 = Some rect).
    { intros q Hx Hy. apply hitTest_Some_iff. exists [], [].
      split; [reflexivity |]. split; [| constructor].
      split; [eexists; split; reflexivity |].
      apply rect_variantTest_bounds. split; assumption. }
    cbn [entities layers view view_zoom handleGeminiResult addToHistory
         setEntities setCommandHistory initialState INITIAL_VIEW app].
    rewrite Hhit; [reflexivity | |];
      unfold eventWorldPos, screenToWorld; cbn; lra.
  - destruct (selection_at_most_one s' Hr') as (_ & _ & _ & Hdel & _).
    exact Hdel.
Defined.

(** ** Serializer *)

Lemma append_assoc (a b c : string) : ((a ++ b) ++ c = a ++ (b ++ c))%string.
Proof. induction a as [|ch a IH]; cbn; [reflexivity | now rewrite IH]. Qed.

Lemma append_nil_r (a : string) : (a ++ EmptyString = a)%string.
Proof. induction a as [|ch a IH]; cbn; [reflexivity | now rewrite IH]. Qed.

Lemma records_app fmtOther l1 l2 :
  records fmtOther (l1 ++ l2)%list
  = (records fmtOther l1 ++ records fmtOther l2)%string.
Proof.
  induction l1 as [|e l1 IH]; cbn; [reflexivity |].
  now rewrite IH, append_assoc.
Qed.

Lemma fold_left_records fmtOther ents (acc : string) :
  fold_left (fun s ent => s ++ entityRecord fmtOther ent) ents acc
  = (acc ++ records fmtOther ents)%string.
Proof.
  revert acc. induction ents as [|e ents IH]; intros acc; cbn.
  - now rewrite append_nil_r.
  - now rewrite IH, append_assoc.
Qed.

Lemma createDXFContent_records fmtOther ents :
  createDXFContent fmtOther ents
  = (prologue ++ records fmtOther ents ++ trailer)%string.
Proof.
  unfold createDXFContent. now rewrite fold_left_records, append_assoc.
Qed.

(** Integers below 2^53 in magnitude print in decimal. *)
Lemma numToString_IZR fmtOther (z : Z) :
  (Z.abs z < 2 ^ 53)%Z ->
  numToString fmtOther (IZR z) = NilZero.string_of_int (Z.to_int z).
Proof.
  intros Hz. unfold numToString. rewrite ZfloorZ.
  replace (Reqb (IZR z) (IZR z)) with true by (symmetry; now apply Reqb_true).
  apply Z.ltb_lt in Hz. rewrite Hz. reflexivity.
Qed.

(** C7: whatever the entity list, the output is the fixed prologue (the
    HEADER section and the opening of the ENTITIES section), then the
    records of the entities in order, then the fixed trailer (ENDSEC and
    EOF); for the empty list it is the prologue immediately followed by the
    trailer.  The texts are given verbatim, one group code or value per
    line, each line ended by a line feed. *)
Theorem createDXFContent_framed (fmtOther : R -> string) (ents : list Entity) :
  (exists body,
      createDXFContent fmtOther ents = (prologue ++ body ++ trailer)%string /\
      body = records fmtOther ents) /\
  (exists body,
      createDXFContent fmtOther ents
      = ("0
SECTION
2
HEADER
0
ENDSEC
0
SECTION
2
ENTITIES
" ++ body ++ "0
ENDSEC
0
EOF
")%string) /\
  createDXFContent fmtOther [] = (prologue ++ trailer)%string /\
  createDXFContent fmtOther []
  = "0
SECTION
2
HEADER
0
ENDSEC
0
SECTION
2
ENTITIES
0
ENDSEC
0
EOF
" /\
  prologue
  = "0
SECTION
2
HEADER
0
ENDSEC
0
SECTION
2
ENTITIES
" /\
  trailer
  = "0
ENDSEC
0
EOF
" /\
  String.length (createDXFContent fmtOther []) = 64%nat.
Proof.
  split; [| split; [| repeat split]].
  - exists (records fmtOther ents).
    split; [apply createDXFContent_records | reflexivity].
  - exists (records fmtOther ents). apply createDXFContent_records.
Qed.

(** C6: a circle entity is written, in its place among the records of the
    entities section, as a CIRCLE record: group 8 with the owning layer
    identifier, group 10 with the centre's X, group 20 with the centre's Y
    negated, group 40 with the radius as it is.  The circle with cx = 5,
    cy = 5, r = 2 on layer "0" gives the lines 10, 5, 20, -5, 40, 2 in that
    order between prologue and trailer; the whole document is given
    verbatim. *)
Theorem createDXFContent_circle (fmtOther : R -> string) :
  (forall before after b cx cy r,
      createDXFContent fmtOther (before ++ CircleEntity b cx cy r :: after)%list
      = (prologue ++ records fmtOther before
         ++ "0
CIRCLE
8
" ++ ent_layerId b ++ "
10
" ++ numToString fmtOther cx ++ "
20
" ++ numToString fmtOther (- cy) ++ "
40
" ++ numToString fmtOther r ++ "
" ++ records fmtOther after ++ trailer)%string) /\
  (forall i color sel,
      createDXFContent fmtOther [CircleEntity (mkBase i "0" color sel) 5 5 2]
      = "0
SECTION
2
HEADER
0
ENDSEC
0
SECTION
2
ENTITIES
0
CIRCLE
8
0
10
5
20
-5
40
2
0
ENDSEC
0
EOF
") /\
  (forall z, (Z.abs z < 2 ^ 53)%Z ->
      numToString fmtOther (IZR z) = NilZero.string_of_int (Z.to_int z)) /\
  numToString fmtOther 5 = "5" /\
  numToString fmtOther (- (5)) = "-5" /\
  numToString fmtOther 2 = "2".
Proof.
  split; [| split; [| split; [| split; [| split]]]].
  - intros before after b cx cy r.
    rewrite createDXFContent_records, records_app. cbn [records entityRecord].
    unfold layerId; cbn [base unlines].
    rewrite !append_assoc. reflexivity.
  - intros i color sel.
    rewrite createDXFContent_records. cbn [records entityRecord].
    unfold layerId; cbn [base ent_layerId].
    rewrite <- (opp_IZR 5).
    rewrite !numToString_IZR by (cbn; lia).
    reflexivity.
  - intros z Hz. now apply numToString_IZR.
  - rewrite numToString_IZR by (cbn; lia). reflexivity.
  - rewrite <- (opp_IZR 5), numToString_IZR by (cbn; lia). reflexivity.
  - rewrite numToString_IZR by (cbn; lia). reflexivity.
Qed.

(** ** No handler throws in a reachable state *)

Lemma handleMouseDown_frame canvas newId e s s' :
  handleMouseDown canvas newId e s = Some s' ->
  layers s' = layers s /\ view s' = view s.
Proof.
  unfold handleMouseDown.
  repeat break_match; intros [= <-]; split; reflexivity.
Qed.

Lemma handleMouseMove_frame canvas e s :
  layers (handleMouseMove canvas e s) = layers s /\
  view_zoom (view (handleMouseMove canvas e s)) = view_zoom (view s).
Proof.
  unfold handleMouseMove. repeat break_match; split; reflexivity.
Qed.

Lemma handleKey_frame key s :
  layers (handleKey key s) = layers s /\ view (handleKey key s) = view s.
Proof.
  unfold handleKey, handleDelete. repeat break_match; split; reflexivity.
Qed.

Lemma step_layers ev s s' :
  step ev s = Some s' ->
  (List.length (layers s) <= List.length (layers s'))%nat.
Proof.
  destruct ev; cbn [step];
    try (intros [= <-]; cbn; apply Nat.le_refl);
    try gemini_submit_case ltac:(apply Nat.le_refl).
  - intros H. apply handleMouseDown_frame in H as [-> _]. apply Nat.le_refl.
  - intros [= <-]. rewrite (proj1 (handleMouseMove_frame canvas e s)). apply Nat.le_refl.
  - intros [= <-]. unfold handleMouseUp. break_match; apply Nat.le_refl.
  - intros [= <-]. rewrite (proj1 (handleKey_frame key s)). apply Nat.le_refl.
  - intros [= <-]. unfold handleDelete. break_match; apply Nat.le_refl.
  - intros [= <-]. unfold handleCommand. repeat break_match; apply Nat.le_refl.
  - intros [= <-]. unfold handleNewLayer; cbn. rewrite length_app; cbn. lia.
  - intros [= <-]. unfold handleLayerSelect. break_match; apply Nat.le_refl.
  - intros [= <-]. unfold handleToggleVisible.
    break_match; cbn; [rewrite length_map |]; apply Nat.le_refl.
  - intros [= <-]. unfold handleToggleLock.
    break_match; cbn; [rewrite length_map |]; apply Nat.le_refl.
  - intros [= <-]. unfold handleGeminiResult. break_match; apply Nat.le_refl.
Qed.

Lemma step_zoom_pos ev s s' :
  step ev s = Some s' -> 0 < view_zoom (view s) -> 0 < view_zoom (view s').
Proof.
  destruct ev; cbn [step];
    try (intros [= <-]; cbn; exact (fun H => H));
    try gemini_submit_case ltac:(exact (fun H => H)).
  - intros H. apply handleMouseDown_frame in H as [_ ->]. exact (fun H => H).
  - intros [= <-]. rewrite (proj2 (handleMouseMove_frame canvas e s)). exact (fun H => H).
  - intros [= <-]. unfold handleMouseUp. break_match; exact (fun H => H).
  - intros [= <-] Hz. unfold handleWheel; cbn.
    break_match; [apply Rmult_lt_0_compat | apply Rdiv_lt_0_compat]; lra.
  - intros [= <-]. rewrite (proj2 (handleKey_frame key s)). exact (fun H => H).
  - intros [= <-]. unfold handleDelete. break_match; exact (fun H => H).
  - intros [= <-]. unfold handleCommand. repeat break_match; exact (fun H => H).
  - intros [= <-]. unfold handleLayerSelect. break_match; exact (fun H => H).
  - intros [= <-]. unfold handleToggleVisible. break_match; exact (fun H => H).
  - intros [= <-]. unfold handleToggleLock. break_match; exact (fun H => H).
  - intros [= <-]. unfold handleGeminiResult. break_match; exact (fun H => H).
Qed.

(** Layers are only ever added and the zoom stays positive. *)
Lemma reachable_sane s :
  reachable s -> layers s <> [] /\ 0 < view_zoom (view s).
Proof.
  induction 1 as [|s ev s' _ [IHl IHz] Hstep].
  - split; [discriminate | cbn; lra].
  - split; [| eapply step_zoom_pos; eassumption].
    apply step_layers in Hstep.
    destruct (layers s); [contradiction |].
    destruct (layers s'); [cbn in Hstep; lia | discriminate].
Qed.

(** So [getActiveLayer] is never [undefined] and every event has a successor
    state. *)
Lemma reachable_step_total s ev :
  reachable s -> exists s', step ev s = Some s'.
Proof.
  intros Hr. destruct (reachable_sane s Hr) as [Hne _].
  destruct (getActiveLayer_nonempty s Hne) as [active Ha].
  destruct ev; cbn [step]; try (eexists; reflexivity).
  unfold handleMouseDown. rewrite Ha.
  repeat break_match; eexists; reflexivity.
Qed.

(** ** Concrete runs *)

Lemma rect_variantTest_isPointInRect b x y w h zoom p :
  variantTest zoom p (RectEntity b x y w h) = isPointInRect p x y w h.
Proof. reflexivity. Qed.

(** Two rectangles that overlap at (12,12): whichever was inserted later is
    the one returned. *)
Example hitTest_overlap :
  let r1 := RectEntity (mkBase "a" "0" None None) 10 10 5 5 in
  let r2 := RectEntity (mkBase "b" "1" None None) 11 11 5 5 in
  hitTest [r1; r2] INITIAL_LAYERS (mkPoint 12 12) 1 = Some r2 /\
  hitTest [r2; r1] INITIAL_LAYERS (mkPoint 12 12) 1 = Some r1.
Proof.
  cbv zeta. split; apply hitTest_Some_iff.
  - exists [RectEntity (mkBase "a" "0" None None) 10 10 5 5], [].
    split; [reflexivity |]. split; [| constructor].
    split; [eexists; split; reflexivity |].
    apply rect_variantTest; cbn; lra.
  - exists [RectEntity (mkBase "b" "1" None None) 11 11 5 5], [].
    split; [reflexivity |]. split; [| constructor].
    split; [eexists; split; reflexivity |].
    apply rect_variantTest; cbn; lra.
Qed.

(** With layer "1" hidden, the rectangle on it is passed over and the one
    below it is returned; an entity on a layer that does not exist is passed
    over as well. *)
Example hitTest_hidden_layer :
  let r1 := RectEntity (mkBase "a" "0" None None) 10 10 5 5 in
  let r2 := RectEntity (mkBase "b" "1" None None) 11 11 5 5 in
  let r3 := RectEntity (mkBase "c" "gone" None None) 11 11 5 5 in
  let hidden :=
    [ mkLayer "0" "0 (Default)" "#ffffff" true false;
      mkLayer "1" "Construction" "#38bdf8" false false ] in
  hitTest [r1; r2; r3] hidden (mkPoint 12 12) 1 = Some r1.
Proof.
  cbv zeta. apply hitTest_Some_iff.
  exists [], [RectEntity (mkBase "b" "1" None None) 11 11 5 5;
              RectEntity (mkBase "c" "gone" None None) 11 11 5 5].
  split; [reflexivity |]. split.
  - split; [eexists; split; reflexivity |].
    apply rect_variantTest; cbn; lra.
  - repeat constructor; intros [(l & Hl & Hv) _]; cbn in Hl.
    + injection Hl as <-. discriminate.
    + discriminate.
Qed.

(** A circle of radius 10 about the origin at zoom 2 (tolerance 2.5): the
    point (6,8) on the ring hits, the centre does not. *)
Example circle_ring_points :
  let c := CircleEntity (mkBase "c" "0" None None) 0 0 10 in
  hitPredicate INITIAL_LAYERS 2 (mkPoint 6 8) c = true /\
  hitPredicate INITIAL_LAYERS 2 (mkPoint 0 0) c = false.
Proof.
  cbv zeta. rewrite !hitPredicate_visible by reflexivity. cbn. split.
  - apply Rltb_true. unfold distance; cbn.
    replace ((0 - 6) * ((0 - 6) * 1) + (0 - 8) * ((0 - 8) * 1)) with (10 * 10) by ring.
    rewrite sqrt_square by lra.
    replace (10 - 10) with 0 by ring. rewrite Rabs_R0. lra.
  - apply Rltb_false. rewrite (distance_self (mkPoint 0 0)).
    rewrite Rabs_left1 by lra. lra.
Qed.

(** A line from (0,0) to (10,0) at zoom 1: the midpoint hits; the collinear
    point (20,0), ten units beyond the end, does not. *)
Example line_segment_points :
  let l := LineEntity (mkBase "l" "0" None None) (mkPoint 0 0) (mkPoint 10 0) in
  hitPredicate INITIAL_LAYERS 1 (mkPoint 5 0) l = true /\
  hitPredicate INITIAL_LAYERS 1 (mkPoint 20 0) l = false.
Proof.
  cbv zeta. rewrite !hitPredicate_visible by reflexivity.
  assert (Hl2 : distance (mkPoint 0 0) (mkPoint 10 0) ^ 2 = 100).
  { unfold distance; cbn [pt_x pt_y].
    replace ((10 - 0) ^ 2 + (0 - 0) ^ 2) with (10 * 10) by ring.
    rewrite sqrt_square by lra. ring. }
  unfold variantTest, lineHit, quotient. rewrite Hl2.
  replace (Reqb 100 0) with false by (symmetry; apply Reqb_false; lra).
  cbn [pt_x pt_y]. split.
  - apply Rltb_true.
    replace (((5 - 0) * (10 - 0) + (0 - 0) * (0 - 0)) / 100) with (1 / 2) by field.
    rewrite (Rmin_right 1 (1 / 2)), (Rmax_right 0 (1 / 2)) by lra.
    unfold distance; cbn [pt_x pt_y].
    replace ((0 + 1 / 2 * (10 - 0) - 5) ^ 2 + (0 + 1 / 2 * (0 - 0) - 0) ^ 2)
      with 0 by field.
    rewrite sqrt_0. lra.
  - apply Rltb_false.
    replace (((20 - 0) * (10 - 0) + (0 - 0) * (0 - 0)) / 100) with 2 by field.
    rewrite (Rmin_left 1 2), (Rmax_right 0 1) by lra.
    unfold distance; cbn [pt_x pt_y].
    replace ((0 + 1 * (10 - 0) - 20) ^ 2 + (0 + 1 * (0 - 0) - 0) ^ 2)
      with (10 * 10) by ring.
    rewrite sqrt_square by lra. lra.
Qed.

(** A rectangle dragged from (10,10) up and to the left to (4,6) is committed
    with the signed size (-6,-4). *)
Example rectangle_dragged_left :
  let canvas := Some (mkRect 0 0) in
  exists s',
    run [MouseDown canvas "a" (mkMouse 10 10 0); MouseMove canvas (mkMouse 4 6 0);
         MouseDown canvas "b" (mkMouse 4 6 0)] (setTool RECTANGLE initialState)
    = Some s' /\
    exists w h,
      entities s' =
        [RectEntity (mkBase "a" "0" (Some "#ffffff") (Some false)) 
           ((10 - 0 - 0) / 1) ((10 - 0 - 0) / 1) w h] /\
      w = -6 /\ h = -4.
Proof.
  cbv zeta. eexists. split; [reflexivity |].
  cbn. do 2 eexists. split; [reflexivity |]. split; field.
Qed.

(** * Further properties of the code *)

(** ** Distances and the two coordinate spaces *)

Lemma sum_sqr_nonneg (a b : R) : 0 <= a ^ 2 + b ^ 2.
Proof. nra. Qed.


Lemma distance_worldToScreen (p q : Point) (viewX viewY zoom : R) :
  distance (worldToScreen (pt_x p) (pt_y p) viewX viewY zoom)
           (worldToScreen (pt_x q) (pt_y q) viewX viewY zoom)
  = Rabs zoom * distance p q.
Proof.
  unfold distance, worldToScreen; cbn [pt_x pt_y].
  replace ((pt_x q * zoom + viewX - (pt_x p * zoom + viewX)) ^ 2 +
           (pt_y q * zoom + viewY - (pt_y p * zoom + viewY)) ^ 2)
    with (Rsqr zoom * ((pt_x q - pt_x p) ^ 2 + (pt_y q - pt_y p) ^ 2))
    by (unfold Rsqr; ring).
  rewrite sqrt_mult; [| apply Rle_0_sqr | apply sum_sqr_nonneg].
  rewrite sqrt_Rsqr_abs. reflexivity.
Qed.

(** X4: [worldToScreen] scales every distance by the magnitude of the zoom,
    whatever the pan offset; for a non-zero zoom [screenToWorld] scales it
    back. *)
Theorem worldToScreen_scales_distance (p q : Point) (viewX viewY zoom : R) :
  distance (worldToScreen (pt_x p) (pt_y p) viewX viewY zoom)
           (worldToScreen (pt_x q) (pt_y q) viewX viewY zoom)
  = Rabs zoom * distance p q /\
  (zoom <> 0 ->
   distance (screenToWorld (pt_x p) (pt_y p) viewX viewY zoom)
            (screenToWorld (pt_x q) (pt_y q) viewX viewY zoom)
   = distance p q / Rabs zoom).
Proof.
  split; [apply distance_worldToScreen |]. intros Hz.
  unfold distance, screenToWorld; cbn [pt_x pt_y].
  replace (((pt_x q - viewX) / zoom - (pt_x p - viewX) / zoom) ^ 2 +
           ((pt_y q - viewY) / zoom - (pt_y p - viewY) / zoom) ^ 2)
    with (((pt_x q - pt_x p) ^ 2 + (pt_y q - pt_y p) ^ 2) * Rsqr (/ zoom))
    by (unfold Rsqr, Rdiv; ring).
  rewrite sqrt_mult; [| apply sum_sqr_nonneg | apply Rle_0_sqr].
  rewrite sqrt_Rsqr_abs, Rabs_inv. reflexivity.
Qed.

Lemma screenToWorld_worldToScreen_inv (wx wy px py z : R) :
  z <> 0 ->
  screenToWorld (pt_x (worldToScreen wx wy px py z))
    (pt_y (worldToScreen wx wy px py z)) px py z = mkPoint wx wy.
Proof.
  intros Hz. unfold screenToWorld, worldToScreen; cbn [pt_x pt_y].
  f_equal; field; exact Hz.
Qed.

(** X5: for a non-zero zoom [screenToWorld] undoes [worldToScreen]: a world
    point is recovered from its screen position. *)
Theorem screenToWorld_worldToScreen (wx wy px py z : R) :
  z <> 0 ->
  let sc := worldToScreen wx wy px py z in
  screenToWorld (pt_x sc) (pt_y sc) px py z = mkPoint wx wy.
Proof.
  intros Hz; cbv zeta. apply screenToWorld_worldToScreen_inv, Hz.
Qed.

Lemma screenToWorld_worldToScreen_witness :
  screenToWorld (pt_x (worldToScreen 3 4 1 1 (-2)))
    (pt_y (worldToScreen 3 4 1 1 (-2))) 1 1 (-2) = mkPoint 3 4.
Proof. apply (screenToWorld_worldToScreen 3 4 1 1 (-2)); lra. Defined.

(** ** The line test *)

Lemma Rltb_iff_compat a b c d : (a < b <-> c < d) -> Rltb a b = Rltb c d.
Proof.
  intros H. destruct (Rltb c d) eqn:E.
  - apply Rltb_true, H, Rltb_true, E.
  - apply Rltb_false. intros Hab. apply Rltb_false in E. apply E, H, Hab.
Qed.





(** ** Clicking on what is drawn *)

(** X7: with the Select tool, a click on the screen position of a world
    point that lies within the most recently inserted entity, a rectangle of
    non-negative size on a visible layer, selects exactly that rectangle. *)
Theorem click_selects_top_rectangle (s : State) (rect : DOMRect)
    (newId : string) (e : MouseEvent) (before : list Entity)
    (b : BaseEntity) (x y width height : R) (p : Point) :
  tool s = SELECT ->
  button e <> 1%Z ->
  view_zoom (view s) <> 0 ->
  entities s = (before ++ [RectEntity b x y width height])%list ->
  layerVisible (layers s) (ent_layerId b) = true ->
  x <= pt_x p <= x + width ->
  y <= pt_y p <= y + height ->
  let sc := worldToScreen (pt_x p) (pt_y p) (view_x (view s)) (view_y (view s))
              (view_zoom (view s)) in
  clientX e = rect_left rect + pt_x sc ->
  clientY e = rect_top rect + pt_y sc ->
  handleMouseDown (Some rect) newId e s = Some (setSelectedIds [ent_id b] s).
Proof.
  intros Ht Hb Hz Hents Hvis Hx Hy sc Hcx Hcy.
  rewrite handleMouseDown_select; [| exact Ht | now apply Z.eqb_neq].
  assert (Hw : eventWorldPos rect e s = p).
  { unfold eventWorldPos. rewrite Hcx, Hcy.
    replace (rect_left rect + pt_x sc - rect_left rect) with (pt_x sc) by ring.
    replace (rect_top rect + pt_y sc - rect_top rect) with (pt_y sc) by ring.
    unfold sc. rewrite screenToWorld_worldToScreen_inv by exact Hz.
    destruct p; reflexivity. }
  rewrite Hw, Hents.
  assert (Hhit : hitTest (before ++ [RectEntity b x y width height])%list
                   (layers s) p (view_zoom (view s))
                 = Some (RectEntity b x y width height)).
  { apply hitTest_Some_iff. exists before, []. split; [reflexivity |].
    split; [| constructor].
    apply hitPredicate_selectable. rewrite hitPredicate_visible by exact Hvis.
    apply rect_variantTest. split; assumption. }
  rewrite Hhit. reflexivity.
Qed.

Lemma click_selects_top_rectangle_witness :
  let s := setEntities [RectEntity (mkBase "r" "0" None None) 10 10 5 5]
             initialState in
  handleMouseDown (Some (mkRect 0 0)) "n" (mkMouse 12 11 0) s
  = Some (setSelectedIds ["r"] s).
Proof.
  cbv zeta.
  apply (click_selects_top_rectangle
           (setEntities [RectEntity (mkBase "r" "0" None None) 10 10 5 5]
              initialState)
           (mkRect 0 0) "n" (mkMouse 12 11 0) []
           (mkBase "r" "0" None None) 10 10 5 5 (mkPoint 12 11)).
  - reflexivity.
  - discriminate.
  - cbn; lra.
  - reflexivity.
  - reflexivity.
  - cbn; lra.
  - cbn; lra.
  - cbn; lra.
  - cbn; lra.
Defined.

(** ** Deleting *)

Lemma includes_In ids i : includes ids i = true <-> In i ids.
Proof.
  unfold includes. rewrite existsb_exists. split.
  - intros (x & Hx & Heq). apply String.eqb_eq in Heq. now subst.
  - intros H. exists i. split; [exact H | apply String.eqb_refl].
Qed.

Lemma handleDelete_entities s :
  entities (handleDelete s)
  = filter (fun e => negb (includes (selectedIds s) (id e))) (entities s).
Proof.
  unfold handleDelete. destruct (selectedIds s) eqn:E; [| reflexivity].
  symmetry. apply forallb_filter_id. apply forallb_forall. reflexivity.
Qed.

(** X8: deleting removes exactly the entities whose identifier is selected
    (all of them, should several share it) and keeps the others in their
    order; it empties the selection; with nothing selected it changes
    nothing at all, not even the command history. *)
Theorem handleDelete_removes_selected (s : State) :
  (selectedIds s = [] -> handleDelete s = s) /\
  (forall e, In e (entities (handleDelete s)) <->
             In e (entities s) /\ ~ In (id e) (selectedIds s)) /\
  entities (handleDelete s)
  = filter (fun e => negb (includes (selectedIds s) (id e))) (entities s) /\
  selectedIds (handleDelete s) = [] /\
  layers (handleDelete s) = layers s /\
  view (handleDelete s) = view s.
Proof.
  split; [intros H; unfold handleDelete; now rewrite H |].
  split.
  - intros e. rewrite handleDelete_entities, filter_In, negb_true_iff.
    rewrite <- includes_In.
    destruct (includes (selectedIds s) (id e)); intuition congruence.
  - split; [apply handleDelete_entities |].
    split; [apply handleDelete_selection |].
    unfold handleDelete. destruct (selectedIds s); split; reflexivity.
Qed.

(** X9: a select-click followed by the Delete key removes the entity that
    was hit, together with any entity sharing its identifier, and keeps
    every other entity in order; after a click that hits nothing the Delete
    key leaves the entity list as it was. *)
Theorem select_then_delete (s : State) (rect : DOMRect) (newId : string)
    (e : MouseEvent) :
  tool s = SELECT ->
  button e <> 1%Z ->
  exists s',
    run [MouseDown (Some rect) newId e; KeyDown "Delete"] s = Some s' /\
    selectedIds s' = [] /\
    match hitTest (entities s) (layers s) (eventWorldPos rect e s)
            (view_zoom (view s)) with
    | Some hit =>
        entities s'
        = filter (fun x => negb (String.eqb (id x) (id hit))) (entities s) /\
        In hit (entities s) /\ ~ In hit (entities s')
    | None => entities s' = entities s
    end.
Proof.
  intros Ht Hb. eexists. split.
  - cbn [run step]. rewrite handleMouseDown_select; [| exact Ht | now apply Z.eqb_neq].
    reflexivity.
  - split; [apply handleDelete_selection |].
    cbn [handleKey String.eqb Ascii.eqb Bool.eqb].
    rewrite handleDelete_entities.
    destruct (hitTest _ _ _ _) as [hit|] eqn:Hhit; cbn.
    + assert (Hf : filter (fun e0 => negb (String.eqb (id e0) (id hit) || false))
                     (entities s)
                   = filter (fun x => negb (String.eqb (id x) (id hit))) (entities s)).
      { apply filter_ext. intros a. now rewrite orb_false_r. }
      rewrite Hf. split; [reflexivity |].
      split; [eapply hitTest_In; exact Hhit |].
      rewrite filter_In. intros [_ H]. rewrite String.eqb_refl in H. discriminate.
    + apply forallb_filter_id. apply forallb_forall. reflexivity.
Qed.

Lemma select_then_delete_witness :
  let s := setEntities [RectEntity (mkBase "r" "0" None None) 10 10 5 5]
             initialState in
  exists s',
    run [MouseDown (Some (mkRect 0 0)) "n" (mkMouse 12 11 0); KeyDown "Delete"] s
    = Some s' /\
    selectedIds s' = [] /\
    match hitTest (entities s) (layers s)
            (eventWorldPos (mkRect 0 0) (mkMouse 12 11 0) s)
            (view_zoom (view s)) with
    | Some hit =>
        entities s'
        = filter (fun x => negb (String.eqb (id x) (id hit))) (entities s) /\
        In hit (entities s) /\ ~ In hit (entities s')
    | None => entities s' = entities s
    end.
Proof.
  cbv zeta.
  apply (select_then_delete
           (setEntities [RectEntity (mkBase "r" "0" None None) 10 10 5 5]
              initialState)
           (mkRect 0 0) "n" (mkMouse 12 11 0)).
  - reflexivity.
  - discriminate.
Defined.

(** ** The entity list *)

Lemma handleMouseDown_entities canvas newId e s s' :
  handleMouseDown canvas newId e s = Some s' ->
  entities s' = entities s \/
  exists pe, previewEntity s = Some pe /\ isDrawing s = true /\
             entities s' = (entities s ++ [pe])%list.
Proof.
  unfold handleMouseDown.
  destruct (previewEntity s) as [pe|] eqn:Hp.
  - destruct (isDrawing s) eqn:Hd; cbn [negb];
      repeat break_match; intros [= <-];
      try (left; reflexivity);
      right; exists pe; repeat split; reflexivity.
  - repeat break_match; intros [= <-]; left; reflexivity.
Qed.

(** X10: the entity list changes in two ways only.  The delete action (the
    button or the Delete key) filters out the selected identifiers; every
    other event keeps the list as a prefix and at most appends to it, so the
    insertion order that the hit test relies on is never disturbed. *)
Theorem step_entities_append_or_delete (ev : Event) (s s' : State) :
  step ev s = Some s' ->
  (exists added, entities s' = (entities s ++ added)%list) \/
  ((ev = DeleteButton \/ ev = KeyDown "Delete") /\
   entities s' =
     filter (fun e => negb (includes (selectedIds s) (id e))) (entities s)).
Proof.
  assert (Hsame : forall l : list Entity, exists added, l = (l ++ added)%list).
  { intros l. exists []. now rewrite app_nil_r. }
  destruct ev; cbn [step];
    try (intros [= <-]; left; apply Hsame);
    try gemini_submit_case ltac:(left; apply Hsame).
  - intros H. left.
    destruct (handleMouseDown_entities _ _ _ _ _ H) as [-> | (pe & _ & _ & ->)];
      [apply Hsame | now exists [pe]].
  - intros [= <-]. left. unfold handleMouseMove.
    repeat break_match; apply Hsame.
  - intros [= <-]. left. unfold handleMouseUp. break_match; apply Hsame.
  - intros [= <-]. unfold handleKey.
    destruct (String.eqb key "Delete") eqn:Hk.
    + apply String.eqb_eq in Hk. subst key. right.
      split; [now right | apply handleDelete_entities].
    + left. break_match; apply Hsame.
  - intros [= <-]. right. split; [now left | apply handleDelete_entities].
  - intros [= <-]. left. unfold handleCommand. repeat break_match; apply Hsame.
  - intros [= <-]. left. unfold handleLayerSelect. break_match; apply Hsame.
  - intros [= <-]. left. unfold handleToggleVisible. break_match; apply Hsame.
  - intros [= <-]. left. unfold handleToggleLock. break_match; apply Hsame.
  - intros [= <-]. left. unfold handleGeminiResult.
    destruct result as [newEntities|]; [now exists newEntities | apply Hsame].
Qed.

(** The Delete key with a selected rectangle, and the arrival of a rectangle
    from the generation service. *)
Lemma step_entities_append_or_delete_witness :
  let rect := RectEntity (mkBase "r" "0" None None) 10 10 5 5 in
  let s := setSelectedIds ["r"] (setEntities [rect] initialState) in
  ((exists added,
      entities (handleKey "Delete" s) = (entities s ++ added)%list) \/
   ((KeyDown "Delete" = DeleteButton \/ KeyDown "Delete" = KeyDown "Delete") /\
    entities (handleKey "Delete" s) =
      filter (fun e => negb (includes (selectedIds s) (id e))) (entities s))) /\
  ((exists added,
      entities (handleGeminiResult (Some [rect]) s) = (entities s ++ added)%list) \/
   ((GeminiResult (Some [rect]) = DeleteButton \/
     GeminiResult (Some [rect]) = KeyDown "Delete") /\
    entities (handleGeminiResult (Some [rect]) s) =
      filter (fun e => negb (includes (selectedIds s) (id e))) (entities s))).
Proof.
  cbv zeta. split.
  - apply (step_entities_append_or_delete (KeyDown "Delete")). reflexivity.
  - apply (step_entities_append_or_delete
             (GeminiResult (Some [RectEntity (mkBase "r" "0" None None) 10 10 5 5]))).
    reflexivity.
Defined.

(** ** The two-click protocol in general *)

(** X11: for every drawing tool, from an idle state with no pan drag in
    progress, a click, a pointer move and a second click append exactly the
    entity that the tool builds from the first click's world point and the
    last pointer position: a line between them, a rectangle with the signed
    differences as size, a circle with their distance as radius; the Arc and
    Text tools append nothing.  Two clicks without a move in between commit
    the zero-size entity.  Either way the machine is idle afterwards. *)
Theorem two_click_commit (s : State) (rect : DOMRect) (id1 id2 : string)
    (e1 e2 e3 : MouseEvent) (t : ToolType) (active : Layer) :
  tool s = t -> t <> SELECT -> t <> PAN ->
  isDrawing s = false ->
  dragStart s = None ->
  getActiveLayer s = Some active ->
  button e1 <> 1%Z ->
  button e3 <> 1%Z ->
  let common :=
    mkBase id1 (activeLayerId s) (Some (layer_color active)) (Some false) in
  let p1 := eventWorldPos rect e1 s in
  let p2 := eventWorldPos rect e2 s in
  let committed (drawn : option Entity) :=
    match drawn with Some ent => [ent] | None => [] end in
  (exists s',
     run [MouseDown (Some rect) id1 e1; MouseMove (Some rect) e2;
          MouseDown (Some rect) id2 e3] s = Some s' /\
     entities s' = (entities s ++ committed (drawnEntity t common p1 p2))%list /\
     isDrawing s' = false /\ previewEntity s' = None /\ startPoint s' = None) /\
  (exists s',
     run [MouseDown (Some rect) id1 e1; MouseDown (Some rect) id2 e3] s = Some s' /\
     entities s' = (entities s ++ committed (drawnEntity t common p1 p1))%list /\
     isDrawing s' = false /\ previewEntity s' = None /\ startPoint s' = None).
Proof.
  intros Ht Hs Hp Hd Hdrag Ha Hb1 Hb3 common p1 p2 committed.
  apply Z.eqb_neq in Hb1, Hb3.
  assert (Hself : distance p1 p1 = 0) by apply distance_self.
  destruct t; try congruence;
    (split; eexists; cbn [run step]; unfold handleMouseDown at 1;
     rewrite Ht, Hb1, Hd, Ha; cbn [negb];
     (split; [
        unfold handleMouseMove, handleMouseDown, eventWorldPos;
        repeat (progress (cbn; rewrite ?Hdrag, ?Ht, ?Hb3)); reflexivity
      | cbn; rewrite ?app_nil_r; repeat split;
        unfold committed, drawnEntity; try rewrite Hself;
        try (do 2 f_equal; try reflexivity; f_equal; ring) ])).
Qed.

Lemma two_click_commit_witness :
  let s := setTool CIRCLE initialState in
  let canvas := Some (mkRect 0 0) in
  exists s',
    run [MouseDown canvas "a" (mkMouse 0 0 0); MouseMove canvas (mkMouse 3 4 0);
         MouseDown canvas "b" (mkMouse 3 4 0)] s = Some s' /\
    isDrawing s' = false /\ previewEntity s' = None.
Proof.
  cbv zeta.
  destruct (two_click_commit (setTool CIRCLE initialState) (mkRect 0 0) "a" "b"
              (mkMouse 0 0 0) (mkMouse 3 4 0) (mkMouse 3 4 0) CIRCLE
              (mkLayer "0" "0 (Default)" "#ffffff" true false))
    as [(s' & Hrun & _ & Hd & Hp & _) _].
  - reflexivity.
  - discriminate.
  - discriminate.
  - reflexivity.
  - reflexivity.
  - reflexivity.
  - discriminate.
  - discriminate.
  - exists s'. repeat split; assumption.
Defined.

(** ** The preview entity *)

Lemma previewAnchored_frame s s' :
  previewEntity s' = previewEntity s ->
  isDrawing s' = isDrawing s ->
  startPoint s' = startPoint s ->
  previewAnchored s -> previewAnchored s'.
Proof.
  unfold previewAnchored. intros -> -> ->. exact (fun H => H).
Qed.

Lemma handleMouseDown_previewAnchored canvas newId e s s' :
  handleMouseDown canvas newId e s = Some s' ->
  previewAnchored s -> previewAnchored s'.
Proof.
  unfold handleMouseDown. intros H Hinv.
  destruct canvas as [rect|].
  - destruct (eventWorldPos rect e s) as [wx wy].
    destruct (tool s) eqn:Ht; destruct (button e =? 1)%Z eqn:Hb;
      try (injection H as <-; exact Hinv);
      try (destruct (hitTest _ _ _ _); injection H as <-; exact Hinv);
      (destruct (isDrawing s) eqn:Hd; cbn [negb] in H;
       [ destruct (previewEntity s) eqn:Hpe; injection H as <-;
         unfold previewAnchored; cbn; rewrite ?Hpe; exact I
       | destruct (getActiveLayer s); [| discriminate]; injection H as <-;
         unfold previewAnchored; cbn;
         try exact I;
         repeat split; try reflexivity; apply Rle_refl ]).
  - destruct (tool s); injection H as <-; exact Hinv.
Qed.

Lemma handleMouseMove_previewAnchored canvas e s :
  previewAnchored s -> previewAnchored (handleMouseMove canvas e s).
Proof.
  unfold handleMouseMove. intros Hinv.
  destruct canvas as [rect|]; [| exact Hinv].
  cbn [dragStart isDrawing startPoint previewEntity setMousePos].
  destruct (dragStart s); [exact Hinv |].
  destruct (isDrawing s) eqn:Hd; [| exact Hinv].
  destruct (startPoint s) as [sp|] eqn:Hsp; [| exact Hinv].
  destruct (previewEntity s) as [pe|] eqn:Hpe; [| unfold previewAnchored; cbn; now rewrite Hpe].
  unfold previewAnchored in Hinv. rewrite Hpe, Hsp in Hinv.
  destruct pe; unfold previewAnchored; cbn; rewrite ?Hd, ?Hsp, ?Hpe;
    try (destruct Hinv as [_ Hinv]; split; [reflexivity | exact Hinv]).
  destruct Hinv as [_ [Hinv _]]. repeat split; [exact Hinv | apply distance_nonneg].
Qed.

Lemma step_previewAnchored ev s s' :
  step ev s = Some s' -> previewAnchored s -> previewAnchored s'.
Proof.
  destruct ev; cbn [step];
    try (intros [= <-]; exact (fun H => H));
    try gemini_submit_case ltac:(exact (fun H => H)).
  - apply handleMouseDown_previewAnchored.
  - intros [= <-]. apply handleMouseMove_previewAnchored.
  - intros [= <-]. apply previewAnchored_frame;
      unfold handleMouseUp; break_match; reflexivity.
  - intros [= <-]. unfold handleKey.
    destruct (String.eqb key "Escape"); [intros _; exact I |].
    apply previewAnchored_frame; unfold handleDelete; repeat break_match; reflexivity.
  - intros [= <-]. apply previewAnchored_frame;
      unfold handleDelete; break_match; reflexivity.
  - intros [= <-]. apply previewAnchored_frame;
      unfold handleCommand; repeat break_match; reflexivity.
  - intros [= <-]. apply previewAnchored_frame;
      unfold handleLayerSelect; break_match; reflexivity.
  - intros [= <-]. apply previewAnchored_frame;
      unfold handleToggleVisible; break_match; reflexivity.
  - intros [= <-]. apply previewAnchored_frame;
      unfold handleToggleLock; break_match; reflexivity.
  - intros [= <-]. apply previewAnchored_frame;
      unfold handleGeminiResult; break_match; reflexivity.
Qed.

Lemma reachable_previewAnchored s : reachable s -> previewAnchored s.
Proof.
  induction 1 as [|s ev s' _ IH Hstep]; [exact I |].
  eapply step_previewAnchored; eassumption.
Qed.

(** X12: in every reachable state a preview entity exists only while a
    drawing is in progress, is anchored at the recorded start point, is a
    line, rectangle or circle, and as a circle has a non-negative radius.
    Hence whatever a click commits is no text entity and no circle of
    negative radius. *)
Theorem preview_invariant (s : State) :
  reachable s ->
  previewAnchored s /\
  (forall canvas newId e s',
      handleMouseDown canvas newId e s = Some s' ->
      entities s' = entities s \/
      exists pe,
        entities s' = (entities s ++ [pe])%list /\
        isTextEntity pe = false /\
        (forall b cx cy r, pe = CircleEntity b cx cy r -> 0 <= r)).
Proof.
  intros Hr. pose proof (reachable_previewAnchored s Hr) as Hinv.
  split; [exact Hinv |].
  intros canvas newId e s' H.
  destruct (handleMouseDown_entities _ _ _ _ _ H) as [-> | (pe & Hpe & _ & ->)];
    [now left | right].
  exists pe. split; [reflexivity |].
  unfold previewAnchored in Hinv. rewrite Hpe in Hinv. destruct Hinv as [_ Hinv].
  destruct pe; try (split; [reflexivity | discriminate]).
  - split; [reflexivity |]. intros b0 cx0 cy0 r0 [= _ _ _ <-]. apply Hinv.
  - destruct Hinv.
Qed.

(** After the first click of the Circle tool and a pointer move there is a
    circle preview, and the invariant holds of it. *)
Lemma preview_invariant_witness :
  let canvas := Some (mkRect 0 0) in
  exists s2 b cx cy r,
    run [MouseDown canvas "a" (mkMouse 1 2 0); MouseMove canvas (mkMouse 4 6 0)]
      (setTool CIRCLE initialState) = Some s2 /\
    previewEntity s2 = Some (CircleEntity b cx cy r) /\
    previewAnchored s2.
Proof.
  cbv zeta. do 5 eexists. split; [reflexivity |]. split; [reflexivity |].
  apply preview_invariant.
  eapply reachable_step;
    [eapply reachable_step;
       [apply (reachable_step initialState (ToolButton CIRCLE));
          [apply reachable_init | reflexivity]
       | exact (eq_refl : step (MouseDown (Some (mkRect 0 0)) "a" (mkMouse 1 2 0))
                            (setTool CIRCLE initialState) = Some _)]
    | exact (eq_refl : step (MouseMove (Some (mkRect 0 0)) (mkMouse 4 6 0)) _ = Some _)].
Defined.

(** ** Panning *)

Lemma last_cons_default {A} (a d : A) (l : list A) : last (a :: l) d = last l a.
Proof.
  revert a d. induction l as [|b l IH]; intros a d; [reflexivity |].
  change (last (a :: b :: l) d) with (last (b :: l) d).
  now rewrite !IH.
Qed.

Lemma handleMouseDown_pan rect newId e s :
  tool s = PAN \/ button e = 1%Z ->
  handleMouseDown (Some rect) newId e s
  = Some (setDragStart (Some (clientPos e)) s).
Proof.
  intros H. unfold handleMouseDown.
  destruct (tool s) eqn:Ht; try reflexivity;
    (destruct H as [H | H]; [discriminate |]; rewrite H; reflexivity).
Qed.

Lemma pan_moves rect (moves : list MouseEvent) :
  forall s ds,
    dragStart s = Some ds ->
    exists s',
      run (map (MouseMove (Some rect)) moves ++ [MouseUp])%list s = Some s' /\
      view_x (view s') = view_x (view s) + (pt_x (last (map clientPos moves) ds) - pt_x ds) /\
      view_y (view s') = view_y (view s) + (pt_y (last (map clientPos moves) ds) - pt_y ds) /\
      view_zoom (view s') = view_zoom (view s) /\
      dragStart s' = None /\
      entities s' = entities s /\
      previewEntity s' = previewEntity s.
Proof.
  induction moves as [|e moves IH]; intros s ds Hds.
  - exists (setDragStart None s). cbn [map app run step].
    unfold handleMouseUp. rewrite Hds. cbn.
    repeat split; try reflexivity; lra.
  - set (s1 := handleMouseMove (Some rect) e s).
    assert (Hs1 : dragStart s1 = Some (clientPos e) /\
                  view_x (view s1) = view_x (view s) + (clientX e - pt_x ds) /\
                  view_y (view s1) = view_y (view s) + (clientY e - pt_y ds) /\
                  view_zoom (view s1) = view_zoom (view s) /\
                  entities s1 = entities s /\
                  previewEntity s1 = previewEntity s).
    { unfold s1, handleMouseMove. cbn [dragStart setMousePos].
      rewrite Hds. cbn. repeat split; reflexivity. }
    destruct Hs1 as (Hd1 & Hx1 & Hy1 & Hz1 & He1 & Hp1).
    destruct (IH s1 (clientPos e) Hd1) as (s' & Hrun & Hx & Hy & Hz & Hd & He & Hp).
    exists s'. cbn [map app run step]. fold s1.
    split; [exact Hrun |].
    rewrite last_cons_default.
    rewrite Hx, Hy, Hz, He, Hp, Hx1, Hy1, Hz1, He1, Hp1. cbn [clientPos pt_x pt_y].
    repeat split; try reflexivity; try assumption; lra.
Qed.

(** X13: a pan gesture (a pointer-down with the Pan tool or the middle
    button, any number of moves, a pointer-up) shifts the pan offset by the
    vector from the first to the last pointer position, however the moves in
    between went.  The zoom, the entity list and a preview under way are
    untouched, the drag is over afterwards, and (for a non-zero zoom) the
    world point that was under the pointer when the gesture began is under
    it when it ends. *)
Theorem pan_gesture (s : State) (rect : DOMRect) (newId : string)
    (e0 : MouseEvent) (moves : list MouseEvent) :
  tool s = PAN \/ button e0 = 1%Z ->
  let final := last (map clientPos moves) (clientPos e0) in
  exists s',
    run (MouseDown (Some rect) newId e0
           :: map (MouseMove (Some rect)) moves ++ [MouseUp])%list s = Some s' /\
    view_x (view s') = view_x (view s) + (pt_x final - clientX e0) /\
    view_y (view s') = view_y (view s) + (pt_y final - clientY e0) /\
    view_zoom (view s') = view_zoom (view s) /\
    dragStart s' = None /\
    entities s' = entities s /\
    previewEntity s' = previewEntity s /\
    (view_zoom (view s) <> 0 ->
     screenToWorld (pt_x final - rect_left rect) (pt_y final - rect_top rect)
       (view_x (view s')) (view_y (view s')) (view_zoom (view s'))
     = eventWorldPos rect e0 s).
Proof.
  intros Hpan final.
  destruct (pan_moves rect moves (setDragStart (Some (clientPos e0)) s)
              (clientPos e0) eq_refl)
    as (s' & Hrun & Hx & Hy & Hz & Hd & He & Hp).
  exists s'. cbn [run step]. rewrite (handleMouseDown_pan _ _ _ _ Hpan).
  split; [exact Hrun |].
  cbn in Hx, Hy, Hz, He, Hp. fold final in Hx, Hy.
  repeat (split; [assumption |]). intros _.
  unfold eventWorldPos, screenToWorld. rewrite Hx, Hy, Hz.
  unfold Rdiv. f_equal; f_equal; ring.
Qed.

Lemma pan_gesture_witness :
  exists s',
    run (MouseDown (Some (mkRect 0 0)) "n" (mkMouse 5 5 1)
           :: map (MouseMove (Some (mkRect 0 0))) [mkMouse 9 2 1; mkMouse 20 30 1]
              ++ [MouseUp])%list initialState = Some s' /\
    view_x (view s') = view_x (view initialState) + (20 - 5) /\
    view_zoom (view s') = view_zoom (view initialState).
Proof.
  destruct (pan_gesture initialState (mkRect 0 0) "n" (mkMouse 5 5 1)
              [mkMouse 9 2 1; mkMouse 20 30 1])
    as (s' & Hrun & Hx & _ & Hz & _).
  - right. reflexivity.
  - exists s'. repeat split; assumption.
Defined.

(** ** Zooming in and out *)

(** X14: a zoom-in wheel event followed by a zoom-out one, or the other way
    round, restores the state exactly. *)
Theorem handleWheel_in_out (dIn dOut : R) (s : State) :
  dIn < 0 -> ~ dOut < 0 ->
  handleWheel dOut (handleWheel dIn s) = s /\
  handleWheel dIn (handleWheel dOut s) = s.
Proof.
  intros Hin Hout.
  apply Rltb_true in Hin. apply Rltb_false in Hout.
  destruct s as [ents lays act [vx vy vz] tl sel pre drw sp ds hist mp].
  unfold handleWheel, setView; cbn. rewrite Hin, Hout.
  split; do 2 f_equal; field; lra.
Qed.

Lemma handleWheel_in_out_witness :
  handleWheel 1 (handleWheel (-1) initialState) = initialState /\
  handleWheel (-1) (handleWheel 1 initialState) = initialState.
Proof. apply (handleWheel_in_out (-1) 1 initialState); lra. Defined.

(** ** The command history *)

Lemma addToHistory_history msg s :
  commandHistory (addToHistory msg s)
  = (skipn (List.length (commandHistory s) - 4) (commandHistory s) ++ [msg])%list.
Proof. reflexivity. Qed.

Lemma addToHistory_length msg s :
  (1 <= List.length (commandHistory (addToHistory msg s)) <= 5)%nat.
Proof.
  rewrite addToHistory_history, length_app, length_skipn. cbn. lia.
Qed.

Lemma step_history ev s s' :
  step ev s = Some s' ->
  commandHistory s' = commandHistory s \/
  exists msg, commandHistory s' = commandHistory (addToHistory msg s).
Proof.
  destruct ev; cbn [step];
    try (intros [= <-]; left; reflexivity);
    try (intros [= <-]; right; eexists; reflexivity);
    try gemini_submit_case ltac:(first [left; reflexivity | right; eexists; reflexivity]).
  - unfold handleMouseDown.
    repeat break_match; intros [= <-];
      try (left; reflexivity); right; eexists; reflexivity.
  - intros [= <-]. left. unfold handleMouseMove. repeat break_match; reflexivity.
  - intros [= <-]. left. unfold handleMouseUp. break_match; reflexivity.
  - intros [= <-]. unfold handleKey, handleDelete.
    repeat break_match; try (left; reflexivity); right; eexists; reflexivity.
  - intros [= <-]. unfold handleDelete.
    break_match; [left; reflexivity | right; eexists; reflexivity].
  - intros [= <-]. unfold handleCommand.
    repeat break_match; try (left; reflexivity); right; eexists; reflexivity.
  - intros [= <-]. left. unfold handleLayerSelect. break_match; reflexivity.
  - intros [= <-]. left. unfold handleToggleVisible. break_match; reflexivity.
  - intros [= <-]. left. unfold handleToggleLock. break_match; reflexivity.
  - intros [= <-]. right. unfold handleGeminiResult.
    break_match; eexists; reflexivity.
Qed.

(** X15: the command history never holds more than five messages and is
    never empty; a new message goes last, after the four most recent ones. *)
Theorem history_bounded (s : State) :
  reachable s ->
  (1 <= List.length (commandHistory s) <= 5)%nat /\
  (forall msg,
      last (commandHistory (addToHistory msg s)) EmptyString = msg /\
      removelast (commandHistory (addToHistory msg s))
      = skipn (List.length (commandHistory s) - 4) (commandHistory s)).
Proof.
  intros Hr. split.
  - induction Hr as [|s ev s' _ IH Hstep]; [cbn; lia |].
    destruct (step_history ev s s' Hstep) as [-> | [msg ->]];
      [exact IH | apply addToHistory_length].
  - intros msg. rewrite addToHistory_history. split.
    + apply last_last.
    + apply removelast_last.
Qed.

Lemma history_bounded_witness :
  (1 <= List.length
          (commandHistory (addToHistory "System: DXF Exported." initialState))
     <= 5)%nat.
Proof.
  apply (history_bounded (addToHistory "System: DXF Exported." initialState)).
  apply (reachable_step initialState ExportDXF);
    [apply reachable_init | reflexivity].
Defined.

(** ** Layers *)

Lemma find_none_Forall {A} (f : A -> bool) (l : list A) :
  find f l = None <-> Forall (fun b => f b = false) l.
Proof.
  induction l as [|h t IH]; cbn; [split; auto |].
  destruct (f h) eqn:Hh.
  - split; [discriminate | intros H; inversion H; congruence].
  - rewrite IH. split; [now constructor | intros H; now inversion H].
Qed.

Lemma findLayer_first ls lid l :
  findLayer ls lid = Some l <->
  exists before after,
    ls = (before ++ l :: after)%list /\ layer_id l = lid /\
    Forall (fun l' => layer_id l' <> lid) before.
Proof.
  unfold findLayer. rewrite find_first_split.
  split; intros (before & after & Hl & Hid & Hb); exists before, after;
    (split; [exact Hl |]); (split; [now apply String.eqb_eq |]);
    (eapply Forall_impl; [| exact Hb]); intros l' Hl'; now apply String.eqb_neq.
Qed.

Lemma findLayer_none ls lid :
  findLayer ls lid = None <-> Forall (fun l' => layer_id l' <> lid) ls.
Proof.
  unfold findLayer. rewrite find_none_Forall.
  split; intros H; (eapply Forall_impl; [| exact H]); intros l' Hl';
    now apply String.eqb_neq.
Qed.

(** X16: the active layer is exactly this: the first layer of the list whose
    identifier is the active one (every layer before it has another
    identifier), or, when no layer has the active identifier, the first
    layer of the list.  It is undefined only for an empty layer list, and a
    pointer-down can throw in no other situation. *)
Theorem getActiveLayer_fallback (s : State) :
  (getActiveLayer s = None <-> layers s = []) /\
  (forall l,
     getActiveLayer s = Some l <->
     (exists before after,
        layers s = (before ++ l :: after)%list /\
        layer_id l = activeLayerId s /\
        Forall (fun l' => layer_id l' <> activeLayerId s) before) \/
     (Forall (fun l' => layer_id l' <> activeLayerId s) (layers s) /\
      exists rest, layers s = (l :: rest)%list)) /\
  (forall canvas newId e,
     handleMouseDown canvas newId e s = None -> layers s = []).
Proof.
  assert (Hnone : getActiveLayer s = None -> layers s = []).
  { unfold getActiveLayer.
    destruct (findLayer (layers s) (activeLayerId s)); [discriminate |].
    destruct (layers s); [reflexivity | discriminate]. }
  split; [| split].
  - split; [exact Hnone |].
    intros H. unfold getActiveLayer, findLayer. rewrite H. reflexivity.
  - intros l. unfold getActiveLayer.
    destruct (findLayer (layers s) (activeLayerId s)) as [l'|] eqn:Hf.
    + split.
      * intros [= <-]. left. now apply findLayer_first.
      * intros [Hfirst | [Hno _]].
        -- apply findLayer_first in Hfirst. congruence.
        -- apply findLayer_none in Hno. congruence.
    + split.
      * intros Hh. right. split; [now apply findLayer_none |].
        destruct (layers s) as [|l0 rest]; [discriminate |].
        injection Hh as <-. now exists rest.
      * intros [Hfirst | [_ [rest Hl]]].
        -- apply findLayer_first in Hfirst. congruence.
        -- rewrite Hl. reflexivity.
  - intros canvas newId e H. apply Hnone.
    unfold handleMouseDown in H.
    destruct (getActiveLayer s); [| reflexivity].
    exfalso. revert H. repeat break_match; discriminate.
Qed.

Lemma toggled_id (target : string) (pl : Layer) :
  layer_id
    (if String.eqb (layer_id pl) target
     then mkLayer (layer_id pl) (layer_name pl) (layer_color pl)
            (negb (layer_visible pl)) (layer_locked pl)
     else pl) = layer_id pl.
Proof. destruct (String.eqb (layer_id pl) target); reflexivity. Qed.

Lemma lock_toggled_id (target : string) (pl : Layer) :
  layer_id
    (if String.eqb (layer_id pl) target
     then mkLayer (layer_id pl) (layer_name pl) (layer_color pl)
            (layer_visible pl) (negb (layer_locked pl))
     else pl) = layer_id pl.
Proof. destruct (String.eqb (layer_id pl) target); reflexivity. Qed.

(** Lookup in a layer list whose rows with identifier [target] had their
    visibility flipped. *)
Lemma layerVisible_toggled (target lid : string) (ls : list Layer) :
  layerVisible
    (map (fun pl =>
            if String.eqb (layer_id pl) target
            then mkLayer (layer_id pl) (layer_name pl) (layer_color pl)
                   (negb (layer_visible pl)) (layer_locked pl)
            else pl) ls) lid
  = if String.eqb lid target
    then match findLayer ls lid with
         | Some l => negb (layer_visible l)
         | None => false
         end
    else layerVisible ls lid.
Proof.
  unfold layerVisible, findLayer.
  induction ls as [|pl ls IH]; cbn [map find].
  - destruct (String.eqb lid target); reflexivity.
  - rewrite toggled_id.
    destruct (String.eqb (layer_id pl) lid) eqn:Hid; [| exact IH].
    apply String.eqb_eq in Hid. subst lid.
    destruct (String.eqb (layer_id pl) target); reflexivity.
Qed.

(** X17: clicking the eye of a layer row flips the visibility that the hit
    test sees for that layer's identifier and leaves every other identifier
    as it was; once a visible layer is hidden this way, no select-click
    returns an entity on it. *)
Theorem toggle_visible_flips (s : State) (n : nat) (l : Layer) :
  nth_error (layers s) n = Some l ->
  let s' := handleToggleVisible n s in
  layerVisible (layers s') (layer_id l)
  = negb (layerVisible (layers s) (layer_id l)) /\
  (forall lid, lid <> layer_id l ->
     layerVisible (layers s') lid = layerVisible (layers s) lid) /\
  (layerVisible (layers s) (layer_id l) = true ->
   forall ents p zoom hit,
     hitTest ents (layers s') p zoom = Some hit -> layerId hit <> layer_id l) /\
  entities s' = entities s /\ selectedIds s' = selectedIds s.
Proof.
  intros Hn s'. unfold s', handleToggleVisible. rewrite Hn. cbn [layers setLayers].
  assert (Hflip :
    layerVisible
      (map (fun pl =>
              if String.eqb (layer_id pl) (layer_id l)
              then mkLayer (layer_id pl) (layer_name pl) (layer_color pl)
                     (negb (layer_visible pl)) (layer_locked pl)
              else pl) (layers s)) (layer_id l)
    = negb (layerVisible (layers s) (layer_id l))).
  { rewrite layerVisible_toggled, String.eqb_refl.
    unfold layerVisible.
    destruct (findLayer (layers s) (layer_id l)) as [l'|] eqn:Hf; [reflexivity |].
    exfalso. apply nth_error_In in Hn.
    unfold findLayer in Hf.
    pose proof (find_none _ _ Hf l Hn) as Hcontra. cbn in Hcontra.
    now rewrite String.eqb_refl in Hcontra. }
  split; [exact Hflip |]. split; [| split; [| split; reflexivity]].
  - intros lid Hlid. rewrite layerVisible_toggled.
    apply String.eqb_neq in Hlid. now rewrite Hlid.
  - intros Hvis ents p zoom hit Hhit Heq.
    apply hitTest_Some_iff in Hhit as (_ & _ & _ & Hsel & _).
    apply hitPredicate_selectable in Hsel.
    unfold hitPredicate in Hsel. rewrite Heq, Hflip, Hvis in Hsel.
    discriminate.
Qed.

Lemma toggle_visible_flips_witness :
  layerVisible (layers (handleToggleVisible 1 initialState)) "1"
  = negb (layerVisible (layers initialState) "1").
Proof.
  apply (toggle_visible_flips initialState 1
           (mkLayer "1" "Construction" "#38bdf8" true false)).
  reflexivity.
Defined.

Lemma visible_toggled_twice (target : string) (ls : list Layer) :
  map (fun pl =>
         if String.eqb (layer_id pl) target
         then mkLayer (layer_id pl) (layer_name pl) (layer_color pl)
                (negb (layer_visible pl)) (layer_locked pl)
         else pl)
    (map (fun pl =>
            if String.eqb (layer_id pl) target
            then mkLayer (layer_id pl) (layer_name pl) (layer_color pl)
                   (negb (layer_visible pl)) (layer_locked pl)
            else pl) ls) = ls.
Proof.
  rewrite map_map. rewrite <- (map_id ls) at 2. apply map_ext. intros pl.
  destruct (String.eqb (layer_id pl) target) eqn:E; cbn; rewrite E; [| reflexivity].
  destruct pl; cbn. now rewrite negb_involutive.
Qed.

Lemma lock_toggled_twice (target : string) (ls : list Layer) :
  map (fun pl =>
         if String.eqb (layer_id pl) target
         then mkLayer (layer_id pl) (layer_name pl) (layer_color pl)
                (layer_visible pl) (negb (layer_locked pl))
         else pl)
    (map (fun pl =>
            if String.eqb (layer_id pl) target
            then mkLayer (layer_id pl) (layer_name pl) (layer_color pl)
                   (layer_visible pl) (negb (layer_locked pl))
            else pl) ls) = ls.
Proof.
  rewrite map_map. rewrite <- (map_id ls) at 2. apply map_ext. intros pl.
  destruct (String.eqb (layer_id pl) target) eqn:E; cbn; rewrite E; [| reflexivity].
  destruct pl; cbn. now rewrite negb_involutive.
Qed.

(** X18: clicking the eye of a layer row twice, or its lock twice, restores
    the state, also when several layers share the row's identifier and when
    there is no such row. *)
Theorem toggle_twice (s : State) (n : nat) :
  handleToggleVisible n (handleToggleVisible n s) = s /\
  handleToggleLock n (handleToggleLock n s) = s.
Proof.
  split.
  - unfold handleToggleVisible at 2.
    destruct (nth_error (layers s) n) as [l|] eqn:Hn.
    + unfold handleToggleVisible. cbn [layers setLayers].
      erewrite map_nth_error by exact Hn.
      rewrite toggled_id.
      destruct s as [ents lays act vw tl sel pre drw sp ds hist mp].
      unfold setLayers; cbn. f_equal. apply visible_toggled_twice.
    + unfold handleToggleVisible. now rewrite Hn.
  - unfold handleToggleLock at 2.
    destruct (nth_error (layers s) n) as [l|] eqn:Hn.
    + unfold handleToggleLock. cbn [layers setLayers].
      erewrite map_nth_error by exact Hn.
      rewrite lock_toggled_id.
      destruct s as [ents lays act vw tl sel pre drw sp ds hist mp].
      unfold setLayers; cbn. f_equal. apply lock_toggled_twice.
    + unfold handleToggleLock. now rewrite Hn.
Qed.

Lemma find_app_layers (f : Layer -> bool) (l1 l2 : list Layer) :
  find f (l1 ++ l2)%list
  = match find f l1 with Some a => Some a | None => find f l2 end.
Proof.
  induction l1 as [|a l1 IH]; cbn; [reflexivity |].
  destruct (f a); [reflexivity | exact IH].
Qed.

(** X19: the [+ New] button appends one visible, unlocked layer named after
    the number of layers there were.  Every identifier that had a layer
    keeps it (a new layer whose identifier collides with an old one is
    shadowed); the new identifier finds the new layer when it was free. *)
Theorem new_layer_lookup (newId : string) (s : State) :
  let added :=
    mkLayer newId ("Layer " ++ natToString (List.length (layers s)))
      "#ffffff" true false in
  layers (handleNewLayer newId s) = (layers s ++ [added])%list /\
  (forall lid,
     findLayer (layers (handleNewLayer newId s)) lid
     = match findLayer (layers s) lid with
       | Some l => Some l
       | None => if String.eqb newId lid then Some added else None
       end) /\
  (forall lid, layerVisible (layers s) lid = true ->
     layerVisible (layers (handleNewLayer newId s)) lid = true) /\
  (findLayer (layers s) newId = None ->
   layerVisible (layers (handleNewLayer newId s)) newId = true) /\
  entities (handleNewLayer newId s) = entities s.
Proof.
  cbv zeta.
  assert (Hfind : forall lid,
     findLayer (layers (handleNewLayer newId s)) lid
     = match findLayer (layers s) lid with
       | Some l => Some l
       | None =>
           if String.eqb newId lid
           then Some (mkLayer newId
                        ("Layer " ++ natToString (List.length (layers s)))
                        "#ffffff" true false)
           else None
       end).
  { intros lid. unfold findLayer, handleNewLayer. cbn [layers setLayers].
    rewrite find_app_layers. cbn [find layer_id].
    destruct (String.eqb newId lid); reflexivity. }
  split; [reflexivity |]. split; [exact Hfind |]. split; [| split; [| reflexivity]].
  - intros lid. unfold layerVisible. rewrite Hfind.
    destruct (findLayer (layers s) lid); [exact (fun H => H) | discriminate].
  - intros Hfree. unfold layerVisible. rewrite Hfind, Hfree, String.eqb_refl.
    reflexivity.
Qed.

(** ** Running without exceptions *)

(** X20: in every reachable state there is at least one layer and the zoom
    is positive; no event makes a handler throw, and the state it leads to
    is reachable again. *)
Theorem reachable_never_throws (s : State) :
  reachable s ->
  layers s <> [] /\
  0 < view_zoom (view s) /\
  (exists active, getActiveLayer s = Some active) /\
  (forall ev, exists s', step ev s = Some s' /\ reachable s').
Proof.
  intros Hr. destruct (reachable_sane s Hr) as [Hne Hz].
  split; [exact Hne |]. split; [exact Hz |].
  split; [now apply getActiveLayer_nonempty |].
  intros ev. destruct (reachable_step_total s ev Hr) as [s' Hs'].
  exists s'. split; [exact Hs' |]. eapply reachable_step; eassumption.
Qed.

Lemma reachable_never_throws_witness :
  let s := handleWheel 1 initialState in
  layers s <> [] /\ 0 < view_zoom (view s).
Proof.
  cbv zeta.
  destruct (reachable_never_throws (handleWheel 1 initialState))
    as (H1 & H2 & _).
  - apply (reachable_step initialState (Wheel 1));
      [apply reachable_init | reflexivity].
  - split; assumption.
Defined.

(** ** What the serializer leaves out *)

Lemma records_skip_text fmtOther ents :
  records fmtOther (filter (fun e => negb (isTextEntity e)) ents)
  = records fmtOther ents.
Proof.
  induction ents as [|e ents IH]; [reflexivity |].
  destruct e; cbn [filter isTextEntity negb records]; rewrite IH; reflexivity.
Qed.

(** X22: text entities leave no trace in the exported document: removing
    them from the entity list gives the same output, and a drawing of text
    entities only exports as the empty document.  The records of a
    concatenated list are the records of its parts, one after the other. *)
Theorem createDXFContent_skips_text (fmtOther : R -> string)
    (ents : list Entity) :
  createDXFContent fmtOther ents
  = createDXFContent fmtOther (filter (fun e => negb (isTextEntity e)) ents) /\
  (forallb isTextEntity ents = true ->
   createDXFContent fmtOther ents = createDXFContent fmtOther []) /\
  (forall more,
     createDXFContent fmtOther (ents ++ more)%list
     = (prologue ++ records fmtOther ents ++ records fmtOther more ++ trailer)%string).
Proof.
  split; [| split].
  - now rewrite !createDXFContent_records, records_skip_text.
  - intros Hall. rewrite !createDXFContent_records.
    rewrite <- (records_skip_text fmtOther ents).
    replace (filter (fun e => negb (isTextEntity e)) ents) with (@nil Entity);
      [reflexivity |].
    induction ents as [|e ents IH]; [reflexivity |].
    cbn in Hall. apply andb_true_iff in Hall as [He Hall].
    cbn [filter]. rewrite He. cbn [negb]. now apply IH.
  - intros more.
    now rewrite createDXFContent_records, records_app, append_assoc.
Qed.

(** ** The generated entities *)

Lemma transformItem_Some lid newId item ent :
  transformItem lid newId item = Some ent ->
  knownType item = true /\
  entityType ent = item_type item /\
  base ent = mkBase newId lid None (Some false) /\
  (forall b x y t fs, ent = TextEntity b x y t fs -> fs <> 0).
Proof.
  unfold transformItem, knownType.
  destruct (String.eqb (item_type item) "line") eqn:E1.
  { intros [= <-]. apply String.eqb_eq in E1.
    repeat split; auto; discriminate. }
  destruct (String.eqb (item_type item) "circle") eqn:E2.
  { intros [= <-]. apply String.eqb_eq in E2.
    repeat split; auto; discriminate. }
  destruct (String.eqb (item_type item) "rect") eqn:E3.
  { intros [= <-]. apply String.eqb_eq in E3.
    repeat split; auto; discriminate. }
  destruct (String.eqb (item_type item) "text") eqn:E4; [| discriminate].
  intros [= <-]. apply String.eqb_eq in E4.
  repeat split; auto.
  intros b x y t fs [= _ _ _ _ <-].
  unfold fontSizeOrDefault.
  destruct (item_fontSize item) as [f|]; [| lra].
  destruct (Reqb f 0) eqn:Ef; [lra | now apply Reqb_false].
Qed.

Lemma transformItem_None lid newId item :
  transformItem lid newId item = None -> knownType item = false.
Proof.
  unfold transformItem, knownType.
  repeat (break_match; [discriminate |]). reflexivity.
Qed.

(** X23: of the items of a response, exactly those whose type is line,
    circle, rect or text become entities, in the order of the response and
    with that type; the others are dropped without disturbing the rest.
    Every generated entity is on the requested layer, unselected, without a
    colour of its own, and a generated text entity never has font size 0
    (a missing or zero size becomes 12). *)
Theorem transformItems_wellformed (lid : string) (ids : nat -> string)
    (i : nat) (items : list GeminiItem) :
  map entityType (transformItems lid ids i items)
  = map item_type (filter knownType items) /\
  (List.length (transformItems lid ids i items) <= List.length items)%nat /\
  (forall ent, In ent (transformItems lid ids i items) ->
     layerId ent = lid /\
     ent_selected (base ent) = Some false /\
     ent_color (base ent) = None /\
     (forall b x y t fs, ent = TextEntity b x y t fs -> fs <> 0)).
Proof.
  revert i. induction items as [|item items IH]; intros i.
  - split; [reflexivity |]. split; [apply Nat.le_refl | intros ent []].
  - destruct (IH (S i)) as (Htypes & Hlen & Hall).
    cbn [transformItems filter].
    destruct (transformItem lid (ids i) item) as [ent|] eqn:Ht.
    + apply transformItem_Some in Ht as (Hk & Hty & Hbase & Hfs).
      rewrite Hk. cbn [map List.length]. rewrite Hty, Htypes.
      split; [reflexivity |]. split; [lia |].
      intros ent' [<- | Hin]; [| now apply Hall].
      unfold layerId. rewrite Hbase. cbn. repeat split. exact Hfs.
    + apply transformItem_None in Ht. rewrite Ht.
      split; [exact Htypes |]. split; [cbn [List.length]; lia | exact Hall].
Qed.

(** ** Cancelling *)

Lemma handleKey_Escape s :
  handleKey "Escape" s
  = setTool SELECT
      (setSelectedIds [] (setPreviewEntity None (setIsDrawing false s))).
Proof. reflexivity. Qed.

Lemma handleMouseMove_entities canvas e s :
  entities (handleMouseMove canvas e s) = entities s.
Proof.
  unfold handleMouseMove. destruct canvas; [| reflexivity].
  repeat break_match; reflexivity.
Qed.

(** X24: a drawing that is escaped is never committed.  After the first
    click of any drawing tool and a pointer move, the Escape key leaves the
    entity list as it was before the click, clears the preview and the
    selection and makes Select the active tool; the next click is then a
    select-click and adds nothing either. *)
Theorem escape_discards_drawing (s : State) (rect : DOMRect)
    (id1 id2 : string) (e1 e2 e3 : MouseEvent) :
  tool s <> SELECT -> tool s <> PAN ->
  isDrawing s = false ->
  layers s <> [] ->
  button e1 <> 1%Z ->
  button e3 <> 1%Z ->
  (exists s',
     run [MouseDown (Some rect) id1 e1; MouseMove (Some rect) e2;
          KeyDown "Escape"] s = Some s' /\
     entities s' = entities s /\ previewEntity s' = None /\
     isDrawing s' = false /\ selectedIds s' = [] /\ tool s' = SELECT) /\
  (exists s',
     run [MouseDown (Some rect) id1 e1; MouseMove (Some rect) e2;
          KeyDown "Escape"; MouseDown (Some rect) id2 e3] s = Some s' /\
     entities s' = entities s /\ previewEntity s' = None /\
     isDrawing s' = false).
Proof.
  intros Hs Hp Hd Hne Hb1 Hb3.
  destruct (getActiveLayer_nonempty s Hne) as [active Ha].
  apply Z.eqb_neq in Hb1, Hb3.
  assert (H1 : exists s1,
             handleMouseDown (Some rect) id1 e1 s = Some s1 /\
             entities s1 = entities s).
  { unfold handleMouseDown. rewrite Hb1, Hd, Ha. cbn [negb].
    destruct (tool s); try congruence; eexists; split; reflexivity. }
  destruct H1 as (s1 & Hs1 & He1).
  split; eexists; cbn [run step]; rewrite Hs1.
  - split; [reflexivity |]. rewrite handleKey_Escape.
    cbn [entities previewEntity isDrawing selectedIds tool setTool
         setSelectedIds setPreviewEntity setIsDrawing].
    rewrite handleMouseMove_entities, He1. repeat split.
  - rewrite handleMouseDown_select by (reflexivity || exact Hb3).
    split; [reflexivity |]. rewrite handleKey_Escape.
    cbn [entities previewEntity isDrawing selectedIds tool setTool
         setSelectedIds setPreviewEntity setIsDrawing].
    rewrite handleMouseMove_entities, He1. repeat split.
Qed.

Lemma escape_discards_drawing_witness :
  let canvas := Some (mkRect 0 0) in
  exists s',
    run [MouseDown canvas "a" (mkMouse 1 1 0); MouseMove canvas (mkMouse 8 9 0);
         KeyDown "Escape"] (setTool LINE initialState) = Some s' /\
    entities s' = entities (setTool LINE initialState) /\
    previewEntity s' = None.
Proof.
  cbv zeta.
  destruct (escape_discards_drawing (setTool LINE initialState) (mkRect 0 0)
              "a" "b" (mkMouse 1 1 0) (mkMouse 8 9 0) (mkMouse 8 9 0))
    as [(s' & Hrun & He & Hp & _) _].
  - discriminate.
  - discriminate.
  - reflexivity.
  - discriminate.
  - discriminate.
  - discriminate.
  - exists s'. repeat split; assumption.
Defined.
